(** * The summarization proxy of ai-docs-app (src/backend/server.js)

    A shallow embedding of the three API handlers of the Express server

      - GET  /api/ollama-status
      - POST /api/summarize
      - POST /api/summarize-stream

    together with the part of the JavaScript runtime they rely on
    (truthiness, property access, string trimming and splitting, try/catch),
    followed by the properties of the handlers.

    Conventions.
    - A JavaScript string is a Rocq [string]; a character stands for one
      code unit below 256.
    - A handler talks to two objects: the response [res], modelled by the
      log of the calls made on it ([res_op]), and the upstream server,
      modelled by the log of the requests sent ([upstream_call]) and by the
      answer the environment gives to a request.
    - [res.write(`data: ${JSON.stringify(obj)}\n\n`)] is logged as
      [Write (Data obj)]: the frame is kept as the object it serialises. *)

From Stdlib Require Import String Ascii List Bool ZArith Lia DecimalString.
Import ListNotations.
Local Open Scope string_scope.
Local Open Scope Z_scope.

(** ** Strings *)

Module Str.

(** The white space of ECMAScript among the code units below 256:
    TAB, LF, VT, FF, CR, SPACE and NBSP. *)
Definition is_ws (c : ascii) : bool :=
  let n := nat_of_ascii c in
  ((9 <=? n) && (n <=? 13))%nat || (n =? 32)%nat || (n =? 160)%nat.

Definition is_empty (s : string) : bool :=
  match s with EmptyString => true | String _ _ => false end.

Fixpoint trimStart (s : string) : string :=
  match s with
  | EmptyString => EmptyString
  | String c r => if is_ws c then trimStart r else s
  end.

Fixpoint trimEnd (s : string) : string :=
  match s with
  | EmptyString => EmptyString
  | String c r =>
      let r' := trimEnd r in
      if is_ws c && is_empty r' then EmptyString else String c r'
  end.

(** [String.prototype.trim] *)
Definition trim (s : string) : string := trimEnd (trimStart s).

Definition LF : ascii := ascii_of_nat 10.

(** [s.split('\n')]: the pieces between line feeds; never the empty list. *)
Fixpoint split_lines (s : string) : list string :=
  match s with
  | EmptyString => [EmptyString]
  | String c r =>
      if Ascii.eqb c LF then EmptyString :: split_lines r
      else match split_lines r with
           | h :: t => String c h :: t
           | [] => [String c EmptyString]
           end
  end.

(** [hay.includes(needle)] *)
Fixpoint includes (hay needle : string) : bool :=
  String.prefix needle hay
  || match hay with
     | EmptyString => false
     | String _ r => includes r needle
     end.

(** [items.join(sep)] *)
Fixpoint join (sep : string) (items : list string) : string :=
  match items with
  | [] => EmptyString
  | [x] => x
  | x :: rest => x ++ sep ++ join sep rest
  end.

(** The substring relation [includes] decides. *)
Definition substring (needle hay : string) : Prop :=
  exists pre post, hay = pre ++ needle ++ post.

End Str.

(** ** JavaScript values *)

(** The values a JSON document denotes, and [undefined]. The type of
    numbers is a parameter: the handlers only test a number for truthiness
    and convert it to a string. *)
#[warnings="-register-all"]
Inductive value (num : Type) : Type :=
| VUndefined
| VNull
| VBool (b : bool)
| VNum (n : num)
| VStr (s : string)
| VArr (items : list (value num))
| VObj (fields : list (string * value num)).

Arguments VUndefined {num}.
Arguments VNull {num}.
Arguments VBool {num} b.
Arguments VNum {num} n.
Arguments VStr {num} s.
Arguments VArr {num} items.
Arguments VObj {num} fields.

(** What a [throw] carries, as far as the handlers look at it:
    [error.code] and [error.message]. *)
Record js_error := { code : option string; message : string }.

Definition TypeError (msg : string) : js_error :=
  {| code := None; message := msg |}.

(** The outcome of an expression that may throw, or of an awaited promise. *)
Inductive result (A : Type) : Type :=
| Ok (a : A)
| Throw (e : js_error).

Arguments Ok {A} a.
Arguments Throw {A} e.

(** ** A reference JSON reader

    A number literal is read as the exact decimal [m * 10^e] and rounded
    to the nearest binary64 number, as the engine does. *)

Module RefJson.

Definition decimal : Type := Z * Z.

Definition dquote : ascii := ascii_of_nat 34.
Definition backslash : ascii := ascii_of_nat 92.

(** Fixtures are written with apostrophes where JSON has double quotes. *)
Fixpoint dq (s : string) : string :=
  match s with
  | EmptyString => EmptyString
  | String c r => String (if Ascii.eqb c "'"%char then dquote else c) (dq r)
  end.

Definition is_json_ws (c : ascii) : bool :=
  let n := nat_of_ascii c in
  ((n =? 32) || (n =? 9) || (n =? 10) || (n =? 13))%nat.

Fixpoint skip_ws (s : string) : string :=
  match s with
  | EmptyString => EmptyString
  | String c r => if is_json_ws c then skip_ws r else s
  end.

Definition digit_of (c : ascii) : option Z :=
  let n := nat_of_ascii c in
  if ((48 <=? n) && (n <=? 57))%nat then Some (Z.of_nat n - 48) else None.

Definition hex_of (c : ascii) : option Z :=
  let n := nat_of_ascii c in
  if ((48 <=? n) && (n <=? 57))%nat then Some (Z.of_nat n - 48)
  else if ((65 <=? n) && (n <=? 70))%nat then Some (Z.of_nat n - 55)
  else if ((97 <=? n) && (n <=? 102))%nat then Some (Z.of_nat n - 87)
  else None.

(** The digits at the head of [s]: their value continuing [acc], how many
    there are, and what follows. *)
Fixpoint digits (acc : Z) (count : Z) (s : string) : Z * Z * string :=
  match s with
  | EmptyString => (acc, count, s)
  | String c r =>
      match digit_of c with
      | Some d => digits (10 * acc + d) (count + 1) r
      | None => (acc, count, s)
      end
  end.

(** The body of a string literal, after its opening quote. An escape
    [\uXXXX] is read when the code unit is below 256; a larger one has no
    character here and the reference reader gives up on it, where
    [JSON.parse] goes on. *)
Fixpoint string_body (s : string) : option (string * string) :=
  match s with
  | EmptyString => None
  | String c r =>
      if Ascii.eqb c dquote then Some (EmptyString, r)
      else if Ascii.eqb c backslash then
        match r with
        | String e r' =>
            let simple (x : ascii) :=
              match string_body r' with
              | Some (t, rest) => Some (String x t, rest)
              | None => None
              end in
            if Ascii.eqb e dquote then simple dquote
            else if Ascii.eqb e backslash then simple backslash
            else if Ascii.eqb e "/"%char then simple "/"%char
            else if Ascii.eqb e "b"%char then simple (ascii_of_nat 8)
            else if Ascii.eqb e "f"%char then simple (ascii_of_nat 12)
            else if Ascii.eqb e "n"%char then simple (ascii_of_nat 10)
            else if Ascii.eqb e "r"%char then simple (ascii_of_nat 13)
            else if Ascii.eqb e "t"%char then simple (ascii_of_nat 9)
            else if Ascii.eqb e "u"%char then
              match r' with
              | String h1 (String h2 (String h3 (String h4 r''))) =>
                  match hex_of h1, hex_of h2, hex_of h3, hex_of h4 with
                  | Some 0, Some 0, Some a, Some b =>
                      match string_body r'' with
                      | Some (t, rest) =>
                          Some (String (ascii_of_nat (Z.to_nat (16 * a + b))) t, rest)
                      | None => None
                      end
                  | _, _, _, _ => None
                  end
              | _ => None
              end
            else None
        | EmptyString => None
        end
      else if (nat_of_ascii c <? 32)%nat then None
      else
        match string_body r with
        | Some (t, rest) => Some (String c t, rest)
        | None => None
        end
  end.

(** A number literal: [-? int frac? exp?]. *)
Definition number (s : string) : option (decimal * string) :=
  let '(neg, s1) :=
    match s with
    | String "-" r => (true, r)
    | _ => (false, s)
    end in
  let '(ip, ic, s2) := digits 0 0 s1 in
  let leading_zero :=
    match s1 with String "0" _ => true | _ => false end in
  if (ic =? 0) || (leading_zero && (1 <? ic)) then None
  else
    let frac :=
      match s2 with
      | String "." r =>
          let '(m, fc, s3) := digits ip 0 r in
          if fc =? 0 then None else Some (m, fc, s3)
      | _ => Some (ip, 0, s2)
      end in
    match frac with
    | None => None
    | Some (m, fc, s3) =>
        let signed := if neg then - m else m in
        let with_exp (r : string) :=
          let '(eneg, r1) :=
            match r with
            | String "-" t => (true, t)
            | String "+" t => (false, t)
            | _ => (false, r)
            end in
          let '(ev, ec, r2) := digits 0 0 r1 in
          if ec =? 0 then None
          else Some ((signed, (if eneg then - ev else ev) - fc), r2) in
        match s3 with
        | String "e" r => with_exp r
        | String "E" r => with_exp r
        | _ => Some ((signed, - fc), s3)
        end
    end.

(** A binary64 number: [m * 2^e] with [m] odd, or zero ([Finite 0 0]), or
    an infinity. The sign of zero is not kept: no operation of the server
    tells [-0] from [0]. *)
Inductive double :=
| Finite (m e : Z)
| Infinite (negative : bool).

Definition double_eqb (a b : double) : bool :=
  match a, b with
  | Finite m e, Finite m' e' => (m =? m') && (e =? e')
  | Infinite s, Infinite s' => Bool.eqb s s'
  | _, _ => false
  end.

(** The positive rational [m * b^e] as a fraction, for [m > 0]. *)
Definition ratio (m b e : Z) : Z * Z :=
  if 0 <=? e then (m * b ^ e, 1) else (m, b ^ (- e)).

(** [floor (log2 (n / d))] for positive [n] and [d]. *)
Definition floor_log2 (n d : Z) : Z :=
  let k := Z.log2 n - Z.log2 d in
  if (if 0 <=? k then d * 2 ^ k <=? n else d <=? n * 2 ^ (- k)) then k else k - 1.

(** [n / d] rounded to the nearest integer, a tie to the even one. *)
Definition round_half_even (n d : Z) : Z :=
  let q := n / d in
  match 2 * (n mod d) ?= d with
  | Lt => q
  | Gt => q + 1
  | Eq => if Z.even q then q else q + 1
  end.

(** [m * 2^e] with the factors of two moved out of [m]. *)
Fixpoint odd_part (fuel : nat) (m e : Z) : Z * Z :=
  match fuel with
  | O => (m, e)
  | S fuel' =>
      if (m =? 0) || Z.odd m then (m, e)
      else odd_part fuel' (m / 2) (e + 1)
  end.

(** The binary64 number nearest to [n / d], for positive [n] and [d]: 53
    bits of mantissa, the exponent not below -1074 (subnormal numbers), an
    infinity from [2^1024] on. *)
Definition nearest_double (n d : Z) : double :=
  let e := Z.max (floor_log2 n d - 52) (-1074) in
  let m := if 0 <=? e then round_half_even n (d * 2 ^ e)
           else round_half_even (n * 2 ^ (- e)) d in
  if m =? 0 then Finite 0 0
  else if 1024 <=? Z.log2 m + e then Infinite false
  else let '(m', e') := odd_part 64 m e in Finite m' e'.

(** The Number value of the decimal [m * 10^e]. A decimal far beyond the
    range is settled by its size alone. *)
Definition to_double (dec : decimal) : double :=
  let '(m, e) := dec in
  if m =? 0 then Finite 0 0
  else
    let bits := Z.log2 (Z.abs m) in
    let magnitude :=
      if (0 <=? e) && (1030 <? bits + 3 * e) then Infinite false
      else if (e <? 0) && (bits + 1 + 3 * e <? -1080) then Finite 0 0
      else let '(n, d) := ratio (Z.abs m) 10 e in nearest_double n d in
    if 0 <? m then magnitude
    else match magnitude with
         | Finite m' e' => Finite (- m') e'
         | Infinite _ => Infinite true
         end.

Definition strip_prefix (p s : string) : option string :=
  if String.prefix p s
  then Some (String.substring (String.length p) (String.length s - String.length p) s)
  else None.

Fixpoint parse_value (fuel : nat) (s : string) {struct fuel}
  : option (value double * string) :=
  match fuel with
  | O => None
  | S fuel' =>
      match skip_ws s with
      | String "{" r =>
          match skip_ws r with
          | String "}" r' => Some (VObj [], r')
          | _ =>
              match parse_members fuel' r with
              | Some (fs, r') => Some (VObj fs, r')
              | None => None
              end
          end
      | String "[" r =>
          match skip_ws r with
          | String "]" r' => Some (VArr [], r')
          | _ =>
              match parse_elements fuel' r with
              | Some (vs, r') => Some (VArr vs, r')
              | None => None
              end
          end
      | String c r as s' =>
          if Ascii.eqb c dquote then
            match string_body r with
            | Some (t, r') => Some (VStr t, r')
            | None => None
            end
          else
            match strip_prefix "true" s', strip_prefix "false" s',
                  strip_prefix "null" s' with
            | Some r', _, _ => Some (VBool true, r')
            | _, Some r', _ => Some (VBool false, r')
            | _, _, Some r' => Some (VNull, r')
            | _, _, _ =>
                match number s' with
                | Some (d, r') => Some (VNum (to_double d), r')
                | None => None
                end
            end
      | EmptyString => None
      end
  end

with parse_elements (fuel : nat) (s : string) {struct fuel}
  : option (list (value double) * string) :=
  match fuel with
  | O => None
  | S fuel' =>
      match parse_value fuel' s with
      | Some (v, r) =>
          match skip_ws r with
          | String "]" r' => Some ([v], r')
          | String "," r' =>
              match parse_elements fuel' r' with
              | Some (vs, r'') => Some (v :: vs, r'')
              | None => None
              end
          | _ => None
          end
      | None => None
      end
  end

with parse_members (fuel : nat) (s : string) {struct fuel}
  : option (list (string * value double) * string) :=
  match fuel with
  | O => None
  | S fuel' =>
      match skip_ws s with
      | String c r =>
          if Ascii.eqb c dquote then
            match string_body r with
            | Some (k, r1) =>
                match skip_ws r1 with
                | String ":" r2 =>
                    match parse_value fuel' r2 with
                    | Some (v, r3) =>
                        match skip_ws r3 with
                        | String "}" r4 => Some ([(k, v)], r4)
                        | String "," r4 =>
                            match parse_members fuel' r4 with
                            | Some (fs, r5) => Some ((k, v) :: fs, r5)
                            | None => None
                            end
                        | _ => None
                        end
                    | None => None
                    end
                | _ => None
                end
            | None => None
            end
          else None
      | EmptyString => None
      end
  end.

(** [JSON.parse(s)]: [None] when it throws a SyntaxError. *)
Definition parse (s : string) : option (value double) :=
  match parse_value (2 * String.length s + 2) s with
  | Some (v, r) => if Str.is_empty (skip_ws r) then Some v else None
  | None => None
  end.

(** Neither an infinity nor NaN (no literal reads as NaN). *)
Definition finite (x : double) : bool :=
  match x with
  | Finite _ _ => true
  | Infinite _ => false
  end.

(** ToBoolean of a number: false for zero. *)
Definition truthy (x : double) : bool :=
  match x with
  | Finite m _ => negb (m =? 0)
  | Infinite _ => true
  end.

(** [m] without its trailing zeros, the exponent raised to match. *)
Fixpoint normalize (fuel : nat) (m e : Z) : Z * Z :=
  match fuel with
  | O => (m, e)
  | S fuel' =>
      if (m =? 0) || negb (m mod 10 =? 0) then (m, e)
      else normalize fuel' (m / 10) (e + 1)
  end.

Definition zeros (n : Z) : string :=
  String.concat "" (repeat "0" (Z.to_nat n)).

Definition show (z : Z) : string := NilZero.string_of_int (Z.to_int z).

(** The decimal [m * 10^e] written as [Number::toString] writes a number
    of these digits (radix 10). *)
Definition format_decimal (d : decimal) : string :=
  let '(m0, e0) := d in
  if m0 =? 0 then "0"
  else
    let '(m, e) := normalize (Z.to_nat (Z.log2 (Z.abs m0)) + 1) (Z.abs m0) e0 in
    let sign := if m0 <? 0 then "-" else "" in
    let ds := show m in
    let k := Z.of_nat (String.length ds) in
    let n := k + e in
    let body :=
      if (k <=? n) && (n <=? 21) then ds ++ zeros (n - k)
      else if (0 <? n) && (n <=? 21) then
        String.substring 0 (Z.to_nat n) ds ++ "."
        ++ String.substring (Z.to_nat n) (Z.to_nat (k - n)) ds
      else if (-6 <? n) && (n <=? 0) then "0." ++ zeros (- n) ++ ds
      else
        let ex := (if n - 1 <? 0 then "-" else "+") ++ show (Z.abs (n - 1)) in
        if k =? 1 then ds ++ "e" ++ ex
        else String.substring 0 1 ds ++ "."
             ++ String.substring 1 (Z.to_nat (k - 1)) ds ++ "e" ++ ex in
    sign ++ body.

(** [n / d >= 10^j], for positive [n] and [d]. *)
Definition at_least_pow10 (n d j : Z) : bool :=
  if 0 <=? j then d * 10 ^ j <=? n else d <=? n * 10 ^ (- j).

(** The [j] with [10^(j-1) <= n / d < 10^j], looked for downwards from
    [j]. *)
Fixpoint magnitude10 (fuel : nat) (n d j : Z) : Z :=
  match fuel with
  | O => j
  | S fuel' =>
      if at_least_pow10 n d (j - 1) then j else magnitude10 fuel' n d (j - 1)
  end.

(** The decimal of [k] digits nearest to [n / d], whose magnitude is [j],
    if it reads back as [x]; of the two nearest, the nearer first. *)
Definition digits_for (x : double) (n d j k : Z) : option decimal :=
  let p := j - k in
  let '(sn, sd) := if 0 <=? p then (n, d * 10 ^ p) else (n * 10 ^ (- p), d) in
  let lo := sn / sd in
  let r := sn mod sd in
  let reads c := double_eqb (to_double (c, p)) x in
  let pick a b :=
    if reads a then Some (a, p) else if reads b then Some (b, p) else None in
  match 2 * r ?= sd with
  | Lt => pick lo (lo + 1)
  | Gt => pick (lo + 1) lo
  | Eq => if Z.even lo then pick lo (lo + 1) else pick (lo + 1) lo
  end.

(** The shortest decimal that reads back as the positive number [x]. *)
Fixpoint shortest (fuel : nat) (x : double) (n d j k : Z) : decimal :=
  match fuel with
  | O => (0, 0)
  | S fuel' =>
      match digits_for x n d j k with
      | Some dec => dec
      | None => shortest fuel' x n d j (k + 1)
      end
  end.

(** [Number::toString] (radix 10). *)
Definition toString (x : double) : string :=
  match x with
  | Infinite false => "Infinity"
  | Infinite true => "-Infinity"
  | Finite m e =>
      if m =? 0 then "0"
      else
        let '(n, d) := ratio (Z.abs m) 2 e in
        let guess := (Z.log2 n - Z.log2 d) * 30103 / 100000 + 3 in
        let j := magnitude10 8 n d guess in
        let '(s, p) := shortest 17 (Finite (Z.abs m) e) n d j 1 in
        format_decimal (if m <? 0 then - s else s, p)
  end.

End RefJson.

(** ** The runtime the handlers run on

    Numbers, and [JSON.parse], belong to the JavaScript engine: the handlers
    are written against this interface, and their properties hold for every
    implementation of it. [JSON_parse s = None] stands for a SyntaxError.

    [number_finite] is false for the infinities and NaN, which
    [JSON.stringify] writes as [null].

    [close_on_disconnect] is when the request object emits [close]. Before
    Node 16 it does when the connection closes. From Node 16 on it does once
    the request has been read, which is before a handler that awaits
    anything can register a listener afterwards; the event is not emitted
    again when the client later disconnects. *)
Class Runtime := {
  number : Type;
  number_truthy : number -> bool;
  number_finite : number -> bool;
  Number_toString : number -> string;
  JSON_parse : string -> option (value number);
  close_on_disconnect : bool
}.

(** The reference runtime: binary64 numbers, the JSON reader above, and
    the request events of Node 16 and later (the version the README asks
    for). *)
#[export] Instance ref_runtime : Runtime := {|
  number := RefJson.double;
  number_truthy := RefJson.truthy;
  number_finite := RefJson.finite;
  Number_toString := RefJson.toString;
  JSON_parse := RefJson.parse;
  close_on_disconnect := false
|}.

Module Js.
Section Ops.
Context {R : Runtime}.
Abbreviation val := (value number).

(** ToBoolean *)
Definition truthy (v : val) : bool :=
  match v with
  | VUndefined | VNull => false
  | VBool b => b
  | VNum n => number_truthy n
  | VStr s => negb (Str.is_empty s)
  | VArr _ | VObj _ => true
  end.

(** The value of the own property [k]; of two fields with one key the
    later one counts. *)
Fixpoint lookup (k : string) (fields : list (string * val)) : option val :=
  match fields with
  | [] => None
  | (k', v) :: rest =>
      match lookup k rest with
      | Some w => Some w
      | None => if String.eqb k' k then Some v else None
      end
  end.

(** [v.k] for the keys the server reads ([text], [response], [done],
    [models], [name]), none of which a string, number, boolean or array
    inherits. *)
Definition get (v : val) (k : string) : result val :=
  match v with
  | VUndefined =>
      Throw (TypeError ("Cannot read properties of undefined (reading '" ++ k ++ "')"))
  | VNull =>
      Throw (TypeError ("Cannot read properties of null (reading '" ++ k ++ "')"))
  | VObj fields =>
      Ok (match lookup k fields with Some w => w | None => VUndefined end)
  | _ => Ok VUndefined
  end.

(** [const { k } = v], [v] being the value of the expression [name]: the
    same value as [v.k], another message when [v] has no properties. *)
Definition destructure (name : string) (v : val) (k : string) : result val :=
  match v with
  | VUndefined =>
      Throw (TypeError ("Cannot destructure property '" ++ k ++ "' of '" ++ name
                        ++ "' as it is undefined."))
  | VNull =>
      Throw (TypeError ("Cannot destructure property '" ++ k ++ "' of '" ++ name
                        ++ "' as it is null."))
  | _ => get v k
  end.

(** The string [s + v] and a template literal convert [v] to. An object
    is converted by its [toString]: a parsed object that has a field of
    that name has a value there, not a function, and the conversion throws;
    any other object gives [[object Object]]. An array joins the
    conversions of its elements, [null] and [undefined] giving nothing. *)
Fixpoint to_string (v : val) : result string :=
  match v with
  | VUndefined => Ok "undefined"
  | VNull => Ok "null"
  | VBool true => Ok "true"
  | VBool false => Ok "false"
  | VNum n => Ok (Number_toString n)
  | VStr s => Ok s
  | VArr items =>
      (fix join_items (l : list val) : result string :=
         match l with
         | [] => Ok EmptyString
         | x :: rest =>
             match (match x with
                    | VUndefined | VNull => Ok EmptyString
                    | _ => to_string x
                    end) with
             | Throw e => Throw e
             | Ok s =>
                 match rest with
                 | [] => Ok s
                 | _ :: _ =>
                     match join_items rest with
                     | Throw e => Throw e
                     | Ok r => Ok (s ++ "," ++ r)
                     end
                 end
             end
         end) items
  | VObj fields =>
      match lookup "toString" fields with
      | Some _ => Throw (TypeError "Cannot convert object to primitive value")
      | None => Ok "[object Object]"
      end
  end.

(** [v.trim()], [v] being the value of the expression [name]. *)
Definition trim (name : string) (v : val) : result string :=
  match v with
  | VStr s => Ok (Str.trim s)
  | VUndefined =>
      Throw (TypeError "Cannot read properties of undefined (reading 'trim')")
  | VNull =>
      Throw (TypeError "Cannot read properties of null (reading 'trim')")
  | _ => Throw (TypeError (name ++ ".trim is not a function"))
  end.

(** [name.includes(needle)] for a string [needle]: substring search on a
    string, membership in an array. *)
Definition includes (v : val) (needle : string) : result bool :=
  match v with
  | VStr s => Ok (Str.includes s needle)
  | VArr items =>
      Ok (existsb (fun x => match x with
                            | VStr s => String.eqb s needle
                            | _ => false
                            end) items)
  | VUndefined =>
      Throw (TypeError "Cannot read properties of undefined (reading 'includes')")
  | VNull =>
      Throw (TypeError "Cannot read properties of null (reading 'includes')")
  | _ => Throw (TypeError "model.name.includes is not a function")
  end.

End Ops.
End Js.

(** ** Configuration (process.env) *)

Section Config.
Variable env : string -> option string.

(** [process.env.X || fallback]: an unset or empty variable falls back. *)
Definition or_default (x : option string) (fallback : string) : string :=
  match x with
  | Some s => if Str.is_empty s then fallback else s
  | None => fallback
  end.

Definition OLLAMA_URL : string :=
  or_default (env "OLLAMA_URL") "http://localhost:11434".

Definition MODEL_NAME : string :=
  or_default (env "MODEL_NAME") "mistral".
End Config.

(** ** The two sides of a handler *)

(** The body of [POST {OLLAMA_URL}/api/generate]; the sampling options are
    the constants of the source, [temperature] as tenths. *)
Record generate_request := {
  model : string;
  prompt : string;
  stream : bool;
  temperature_tenths : Z;
  max_tokens : Z
}.

Inductive upstream_call :=
| AxiosGet (url : string)
| AxiosPost (url : string) (body : generate_request) (responseType : option string).

Section World.
Context {R : Runtime}.
Abbreviation val := (value number).

(** A call on [res]. *)
Inductive res_op :=
| Status (code : Z)
| Json (body : val)
| WriteHead (code : Z) (headers : list (string * string))
| Write (data : val)
| End.

Record world := { res : list res_op; calls : list upstream_call }.

Definition init : world := {| res := []; calls := [] |}.

(** A handler: it may throw, and it leaves the two logs behind either way. *)
Definition M (A : Type) : Type := world -> result A * world.

Definition ret {A} (a : A) : M A := fun w => (Ok a, w).

Definition bind {A B} (m : M A) (k : A -> M B) : M B :=
  fun w =>
    match m w with
    | (Ok a, w') => k a w'
    | (Throw e, w') => (Throw e, w')
    end.

Definition lift {A} (r : result A) : M A := fun w => (r, w).

(** [try { body } catch (error) { handler }] *)
Definition try_catch {A} (body : M A) (handler : js_error -> M A) : M A :=
  fun w =>
    match body w with
    | (Ok a, w') => (Ok a, w')
    | (Throw e, w') => handler e w'
    end.

Definition on_res (op : res_op) : M unit :=
  fun w => (Ok tt, {| res := res w ++ [op]; calls := calls w |}).

(** [await axios...]: the request is logged, the environment answers. *)
Definition await {A} (answer : upstream_call -> result A) (c : upstream_call) : M A :=
  fun w => (answer c, {| res := res w; calls := calls w ++ [c] |}).

(** [res.headersSent] *)
Definition headersSent (log : list res_op) : bool :=
  existsb (fun op => match op with Status _ => false | _ => true end) log.

(** The status code the response head went out with. *)
Fixpoint sent_status (current : Z) (log : list res_op) : option Z :=
  match log with
  | [] => None
  | Status c :: rest => sent_status c rest
  | WriteHead c _ :: _ => Some c
  | _ :: _ => Some current
  end.

Definition http_status (log : list res_op) : option Z := sent_status 200 log.

End World.

Declare Scope handler_scope.
Delimit Scope handler_scope with handler.
Notation "x <- m ;; k" := (bind m (fun x => k))
  (at level 61, m at next level, right associativity) : handler_scope.
Notation "m ;;; k" := (bind m (fun _ => k))
  (at level 61, right associativity) : handler_scope.

(** ** The handlers *)

Section Server.
Context {R : Runtime}.
Variable env : string -> option string.
Abbreviation val := (value number).
Local Open Scope handler_scope.

Definition res_json (body : val) : M unit := on_res (Json body).
Definition res_status (c : Z) : M unit := on_res (Status c).
Definition res_write (data : val) : M unit := on_res (Write data).
Definition res_end : M unit := on_res End.

(** *** GET /api/ollama-status *)

(** [models.some(model => model.name.includes(MODEL_NAME))] *)
Fixpoint some_has_model (models : list val) : result bool :=
  match models with
  | [] => Ok false
  | m :: rest =>
      match Js.get m "name" with
      | Throw e => Throw e
      | Ok name =>
          match Js.includes name (MODEL_NAME env) with
          | Throw e => Throw e
          | Ok true => Ok true
          | Ok false => some_has_model rest
          end
      end
  end.

(** [models.map(m => m.name)] *)
Fixpoint map_name (models : list val) : result (list val) :=
  match models with
  | [] => Ok []
  | m :: rest =>
      match Js.get m "name" with
      | Throw e => Throw e
      | Ok name =>
          match map_name rest with
          | Throw e => Throw e
          | Ok names => Ok (name :: names)
          end
      end
  end.

(** The receiver of an array method. *)
Definition array_of (what : string) (v : val) : result (list val) :=
  match v with
  | VArr items => Ok items
  | _ => Throw (TypeError (what ++ " is not a function"))
  end.

Definition ollama_status (upstream : upstream_call -> result val) : M unit :=
  try_catch
    (data <- await upstream (AxiosGet (OLLAMA_URL env ++ "/api/tags")) ;;
     m <- lift (Js.get data "models") ;;
     let models := if Js.truthy m then m else VArr [] in
     items <- lift (array_of "models.some" models) ;;
     hasModel <- lift (some_has_model items) ;;
     names <- lift (map_name items) ;;
     res_json (VObj [("connected", VBool true);
                     ("models", VArr names);
                     ("hasRequiredModel", VBool hasModel);
                     ("requiredModel", VStr (MODEL_NAME env))]))
    (fun error =>
       res_json (VObj [("connected", VBool false);
                       ("error", VStr (message error));
                       ("requiredModel", VStr (MODEL_NAME env))])).

(** *** POST /api/summarize *)

Definition LFLF : string := String Str.LF (String Str.LF EmptyString).

(** The template literal of the prompt. It is evaluated after
    [text.trim()] has returned, so [text] is a string there and its
    conversion does not throw. *)
Definition PROMPT (text : val) : string :=
  "Please provide a concise and professional summary of the following text. Focus on the key points and main ideas:"
  ++ LFLF ++ match Js.to_string text with Ok s => s | Throw _ => EmptyString end.

Definition generate (text : val) (streaming : bool) : generate_request :=
  {| model := MODEL_NAME env;
     prompt := PROMPT text;
     stream := streaming;
     temperature_tenths := 7;
     max_tokens := 500 |}.

(** [!text || text.trim().length === 0] *)
Definition text_missing (text : val) : result bool :=
  if negb (Js.truthy text) then Ok true
  else match Js.trim "text" text with
       | Ok t => Ok (Nat.eqb (String.length t) 0)
       | Throw e => Throw e
       end.

Definition reject_empty : M unit :=
  res_status 400 ;;;
  res_json (VObj [("error", VStr "Text is required for summarization")]).

Definition summarize (upstream : upstream_call -> result val) (body : val) : M unit :=
  try_catch
    (text <- lift (Js.destructure "req.body" body "text") ;;
     missing <- lift (text_missing text) ;;
     if missing then reject_empty
     else
       data <- await upstream
                 (AxiosPost (OLLAMA_URL env ++ "/api/generate") (generate text false) None) ;;
       summary <- lift (Js.get data "response") ;;
       trimmed <- lift (Js.trim "summary" summary) ;;
       res_json (VObj [("success", VBool true);
                       ("summary", VStr trimmed);
                       ("originalText", text)]))
    (fun error =>
       if match code error with
          | Some c => String.eqb c "ECONNREFUSED"
          | None => false
          end
       then
         res_status 503 ;;;
         res_json (VObj [("error", VStr "Cannot connect to Ollama. Please ensure Ollama is running locally.");
                         ("details", VStr ("Trying to connect to: " ++ OLLAMA_URL env))])
       else
         res_status 500 ;;;
         res_json (VObj [("error", VStr "Failed to generate summary");
                         ("details", VStr (message error))])).

(** *** POST /api/summarize-stream *)

Definition sse_headers : list (string * string) :=
  [("Content-Type", "text/event-stream");
   ("Cache-Control", "no-cache");
   ("Connection", "keep-alive");
   ("Access-Control-Allow-Origin", "*");
   ("Access-Control-Allow-Headers", "Cache-Control")].

Definition start_event : val :=
  VObj [("type", VStr "start"); ("message", VStr "Starting summary generation...")].

Definition chunk_event (content : val) (fullContent : string) : val :=
  VObj [("type", VStr "chunk"); ("content", content); ("fullContent", VStr fullContent)].

Definition complete_event (fullResponse : string) (text : val) : val :=
  VObj [("type", VStr "complete");
        ("content", VStr (Str.trim fullResponse));
        ("originalText", text)].

Definition stream_error_event : val :=
  VObj [("type", VStr "error"); ("error", VStr "Stream processing error")].

Definition failure_event (error : js_error) : val :=
  VObj [("type", VStr "error");
        ("error", VStr (if match code error with
                           | Some c => String.eqb c "ECONNREFUSED"
                           | None => false
                           end
                        then "Cannot connect to Ollama. Please ensure Ollama is running locally."
                        else "Failed to generate summary"));
        ("details", VStr (message error))].

(** The handler up to the point where it has registered its listeners:
    [Some text] when it has, [None] when it returned before. *)
Definition summarize_stream_open (upstream : upstream_call -> result unit) (body : val)
  : M (option val) :=
  try_catch
    (text <- lift (Js.destructure "req.body" body "text") ;;
     missing <- lift (text_missing text) ;;
     if missing then reject_empty ;;; ret None
     else
       on_res (WriteHead 200 sse_headers) ;;;
       res_write start_event ;;;
       await upstream
         (AxiosPost (OLLAMA_URL env ++ "/api/generate") (generate text true) (Some "stream")) ;;;
       ret (Some text))
    (fun error =>
       res_write (failure_event error) ;;;
       res_end ;;;
       ret None).

(** What the listeners share: the response, [fullResponse], and whether
    [destroy()] was called on the upstream stream (a Node readable). No
    listener reads that flag; which events of the upstream stream still
    reach a listener afterwards is for the list of events to say. *)
Record relay := {
  out : list res_op;
  fullResponse : string;
  destroyed : bool
}.

Definition emit (op : res_op) (st : relay) : relay :=
  {| out := out st ++ [op];
     fullResponse := fullResponse st;
     destroyed := destroyed st |}.

(** The body of [for (const line of lines)]. A line that fails to parse,
    or parses to [null], or whose fragment cannot be converted to a string,
    is logged to the console and skipped: the [catch] is reached before
    anything was written for the line. *)
Definition on_line (text : val) (st : relay) (line : string) : relay :=
  if Str.is_empty (Str.trim line) then st
  else
    match JSON_parse line with
    | None => st
    | Some parsed =>
        match Js.get parsed "response" with
        | Throw _ => st
        | Ok response =>
            match (if Js.truthy response then
                     match Js.to_string response with
                     | Throw e => Throw e
                     | Ok fragment =>
                         let full := fullResponse st ++ fragment in
                         Ok (emit (Write (chunk_event response full))
                               {| out := out st;
                                  fullResponse := full;
                                  destroyed := destroyed st |})
                     end
                   else Ok st) with
            | Throw _ => st
            | Ok st1 =>
                match Js.get parsed "done" with
                | Throw _ => st1
                | Ok done =>
                    if Js.truthy done then
                      emit End (emit (Write (complete_event (fullResponse st1) text)) st1)
                    else st1
                end
            end
        end
    end.

(** [ollamaResponse.data.on('data', ...)] *)
Definition on_data (text : val) (st : relay) (chunk : string) : relay :=
  fold_left (on_line text) (Str.split_lines chunk) st.

(** [ollamaResponse.data.on('error', ...)] *)
Definition on_error (st : relay) : relay :=
  emit End (emit (Write stream_error_event) st).

(** [ollamaResponse.data.on('end', ...)] *)
Definition on_end (text : val) (st : relay) : relay :=
  if negb (headersSent (out st)) then
    emit End (emit (Write (complete_event (fullResponse st) text)) st)
  else st.

(** [req.on('close', ...)] *)
Definition on_close (st : relay) : relay :=
  {| out := out st; fullResponse := fullResponse st; destroyed := true |}.

(** What happens around a running relay, in order: the events of the
    upstream stream, and the client closing its connection. *)
Inductive event :=
| UpstreamData (chunk : string)
| UpstreamError
| UpstreamEnd
| ClientClose.

(** The listener an event reaches. The listener of [req]'s [close] is
    registered after [await axios.post]: a client that closes its
    connection reaches it only on a runtime whose request emits [close] at
    that moment. *)
Definition dispatch (text : val) (st : relay) (ev : event) : relay :=
  match ev with
  | UpstreamData chunk => on_data text st chunk
  | UpstreamError => on_error st
  | UpstreamEnd => on_end text st
  | ClientClose => if close_on_disconnect then on_close st else st
  end.

Definition run_relay (text : val) (st : relay) (events : list event) : relay :=
  fold_left (dispatch text) events st.

(** A whole request: the handler, then the events delivered to its
    listeners once it has registered them (none is registered when it
    returned before). The result is the relay at the end and the requests
    sent upstream. *)
Definition summarize_stream (upstream : upstream_call -> result unit) (body : val)
  (events : list event) : relay * list upstream_call :=
  match summarize_stream_open upstream body init with
  | (Ok (Some text), w) =>
      (run_relay text {| out := res w; fullResponse := EmptyString; destroyed := false |} events,
       calls w)
  | (_, w) =>
      ({| out := res w; fullResponse := EmptyString; destroyed := false |}, calls w)
  end.

End Server.

(** ** The client (the App component)

    The state of the component and its event handlers, one invocation at a
    time: a handler runs from the state it was rendered with to the state
    after its last update. The speech recogniser and the backend are the
    environment. *)

Module App.
Section Component.
Context {R : Runtime}.
Abbreviation val := (value number).

(** The state hooks of the component. [summary] and [error] hold what the
    handlers put there, which comes from a response body. *)
Record state := {
  isRecording : bool;
  interimText : string;
  transcribedText : string;
  summary : val;
  isLoading : bool;
  error : val;
  ollamaStatus : option val;
  recognition : bool
}.

(** [useState] initial values; [recognition] is set on mount when the
    browser has a speech recogniser. *)
Definition initial (supported : bool) : state :=
  {| isRecording := false;
     interimText := EmptyString;
     transcribedText := EmptyString;
     summary := VStr EmptyString;
     isLoading := false;
     error := if supported then VStr EmptyString
              else VStr "Speech recognition not supported in this browser";
     ollamaStatus := None;
     recognition := supported |}.

(** One entry of [event.results]: [results[i][0].transcript] and
    [results[i].isFinal]. *)
Record speech_result := { transcript : string; isFinal : bool }.

Record speech_event := { resultIndex : nat; results : list speech_result }.

(** The loop of [onresult]: the final and the interim transcript of the
    results from [resultIndex] on. *)
Definition transcripts (ev : speech_event) : string * string :=
  fold_left
    (fun acc r =>
       if isFinal r then (fst acc ++ transcript r, snd acc)
       else (fst acc, snd acc ++ transcript r))
    (skipn (resultIndex ev) (results ev))
    (EmptyString, EmptyString).

(** [recognitionInstance.onresult] *)
Definition onresult (ev : speech_event) (st : state) : state :=
  let '(finalTranscript, interimTranscript) := transcripts ev in
  {| isRecording := isRecording st;
     interimText := interimTranscript;
     transcribedText :=
       if Str.is_empty finalTranscript then transcribedText st
       else transcribedText st ++ finalTranscript;
     summary := summary st;
     isLoading := isLoading st;
     error := error st;
     ollamaStatus := ollamaStatus st;
     recognition := recognition st |}.

(** [recognitionInstance.onerror] *)
Definition onerror (reason : string) (st : state) : state :=
  {| isRecording := false;
     interimText := interimText st;
     transcribedText := transcribedText st;
     summary := summary st;
     isLoading := isLoading st;
     error := VStr ("Speech recognition error: " ++ reason);
     ollamaStatus := ollamaStatus st;
     recognition := recognition st |}.

(** [recognitionInstance.onend] and [stopRecording] *)
Definition stopped (st : state) : state :=
  {| isRecording := false;
     interimText := interimText st;
     transcribedText := transcribedText st;
     summary := summary st;
     isLoading := isLoading st;
     error := error st;
     ollamaStatus := ollamaStatus st;
     recognition := recognition st |}.

Definition onend (st : state) : state := stopped st.

Definition stopRecording (st : state) : state :=
  if recognition st then stopped st else st.

Definition startRecording (st : state) : state :=
  if recognition st then
    {| isRecording := true;
       interimText := interimText st;
       transcribedText := EmptyString;
       summary := VStr EmptyString;
       isLoading := isLoading st;
       error := VStr EmptyString;
       ollamaStatus := ollamaStatus st;
       recognition := recognition st |}
  else st.

(** What [await axios...] gives the client: the body of a 2xx response, or
    an error that carries the response when there was one. *)
Inductive outcome :=
| Resolved (data : val)
| Rejected (response : option val).

(** axios resolves on a status from 200 to 299; no response at all is a
    network error. *)
Definition outcome_of (response : option (Z * val)) : outcome :=
  match response with
  | Some (status, data) =>
      if (200 <=? status) && (status <? 300) then Resolved data
      else Rejected (Some data)
  | None => Rejected None
  end.

Definition set_failure (e : val) (st : state) : state :=
  {| isRecording := isRecording st;
     interimText := interimText st;
     transcribedText := transcribedText st;
     summary := summary st;
     isLoading := false;
     error := e;
     ollamaStatus := ollamaStatus st;
     recognition := recognition st |}.

(** [error.response?.data?.error || 'Failed to generate summary'] *)
Definition failure_message (response : option val) : val :=
  let e :=
    match response with
    | None => VUndefined
    | Some VUndefined | Some VNull => VUndefined
    | Some data => match Js.get data "error" with Ok v => v | Throw _ => VUndefined end
    end in
  if Js.truthy e then e else VStr "Failed to generate summary".

(** [generateSummary]: the state after it, and the bodies it posted to
    /api/summarize. *)
Definition generateSummary (backend : val -> outcome) (st : state) : state * list val :=
  if Str.is_empty (Str.trim (transcribedText st)) then
    ({| isRecording := isRecording st;
        interimText := interimText st;
        transcribedText := transcribedText st;
        summary := summary st;
        isLoading := isLoading st;
        error := VStr "Please record some text first";
        ollamaStatus := ollamaStatus st;
        recognition := recognition st |}, [])
  else
    let body := VObj [("text", VStr (transcribedText st))] in
    (match backend body with
     | Resolved data =>
         match Js.get data "success" with
         | Throw _ => set_failure (failure_message None) st
         | Ok success =>
             if Js.truthy success then
               match Js.get data "summary" with
               | Throw _ => set_failure (failure_message None) st
               | Ok s =>
                   {| isRecording := isRecording st;
                      interimText := interimText st;
                      transcribedText := transcribedText st;
                      summary := s;
                      isLoading := false;
                      error := VStr EmptyString;
                      ollamaStatus := ollamaStatus st;
                      recognition := recognition st |}
               end
             else set_failure (VStr "Failed to generate summary") st
         end
     | Rejected response => set_failure (failure_message response) st
     end, [body]).

(** [checkOllamaStatus] *)
Definition checkOllamaStatus (backend : outcome) (st : state) : state :=
  {| isRecording := isRecording st;
     interimText := interimText st;
     transcribedText := transcribedText st;
     summary := summary st;
     isLoading := isLoading st;
     error := error st;
     ollamaStatus :=
       Some (match backend with
             | Resolved data => data
             | Rejected _ =>
                 VObj [("connected", VBool false);
                       ("error", VStr "Failed to connect to backend")]
             end);
     recognition := recognition st |}.

(** [ollamaStatus?.connected] and [ollamaStatus.hasRequiredModel] *)
Definition status_flag (k : string) (st : state) : bool :=
  match ollamaStatus st with
  | None | Some VUndefined | Some VNull => false
  | Some v => match Js.get v k with Ok c => Js.truthy c | Throw _ => false end
  end.

(** The Generate Summary button is rendered when there is a transcript,
    and [disabled={isLoading || !ollamaStatus?.connected}]. *)
Definition generate_shown (st : state) : bool := negb (Str.is_empty (transcribedText st)).

Definition generate_disabled (st : state) : bool :=
  isLoading st || negb (status_flag "connected" st).

End Component.
End App.

(** ** The client against the server *)

Section EndToEnd.
Context {R : Runtime}.
Variable env : string -> option string.

(** A value as the client receives it, serialised by [res.json] and parsed
    by axios: a field whose value is [undefined] is left out, an
    [undefined] element of an array arrives as [null]. Of two fields with
    one key the later one counts, as for [Js.lookup]; the fields that
    remain stay in the order of the association list, which no read
    distinguishes. A number that is not finite arrives as [null]; strings
    and finite numbers arrive as they were sent. *)
Fixpoint wire (v : value number) : value number :=
  match v with
  | VArr items =>
      VArr (map (fun x => match x with
                          | VUndefined => VNull
                          | _ => wire x
                          end) items)
  | VNum n => if number_finite n then v else VNull
  | VObj fields =>
      VObj ((fix wire_fields (l : list (string * value number)) :=
               match l with
               | [] => []
               | (k, x) :: rest =>
                   if existsb (fun kv => String.eqb (fst kv) k) rest then wire_fields rest
                   else match x with
                        | VUndefined => wire_fields rest
                        | _ => (k, wire x) :: wire_fields rest
                        end
               end) fields)
  | _ => v
  end.

(** The body of the response, as [res.json] was given it. *)
Fixpoint sent_body (log : list res_op) : option (value number) :=
  match log with
  | [] => None
  | Json payload :: _ => Some payload
  | _ :: rest => sent_body rest
  end.

(** The response the client receives for a log of calls on [res]: the
    status, and the body as it crosses the wire. *)
Definition http_response (log : list res_op) : option (Z * value number) :=
  match http_status log, sent_body log with
  | Some status, Some payload => Some (status, wire payload)
  | _, _ => None
  end.

(** POST /api/summarize and GET /api/ollama-status as the client reaches
    them through axios. *)
Definition summarize_backend (upstream : upstream_call -> result (value number))
  (body : value number) : App.outcome :=
  App.outcome_of (http_response (res (snd (summarize env upstream body init)))).

Definition status_backend (upstream : upstream_call -> result (value number)) : App.outcome :=
  App.outcome_of (http_response (res (snd (ollama_status env upstream init)))).

End EndToEnd.

(** ** Vocabulary of the properties *)

Section Vocabulary.
Context {R : Runtime}.
Variable env : string -> option string.

(** The answer to a request without text. *)
Definition required_error : res_op :=
  Json (VObj [("error", VStr "Text is required for summarization")]).

(** The one request a summarize handler sends upstream. *)
Definition generate_call (text : value number) (streaming : bool) : upstream_call :=
  AxiosPost (OLLAMA_URL env ++ "/api/generate") (generate env text streaming)
    (if streaming then Some "stream" else None).

(** The [type] and the other fields of a frame. *)
Definition field (k : string) (e : value number) : value number :=
  match e with
  | VObj fields => match Js.lookup k fields with Some v => v | None => VUndefined end
  | _ => VUndefined
  end.

Definition event_type (e : value number) : option string :=
  match field "type" e with VStr t => Some t | _ => None end.

(** [op] writes a frame of type [t]. *)
Definition writes (t : string) (op : res_op) : bool :=
  match op with
  | Write e => match event_type e with Some t' => String.eqb t' t | None => false end
  | _ => false
  end.

(** The field [k] of the frame a call writes. *)
Definition frame_field (k : string) (op : res_op) : value number :=
  match op with
  | Write e => field k e
  | _ => VUndefined
  end.

Definition is_terminal (op : res_op) : bool := writes "complete" op || writes "error" op.

Definition is_end (op : res_op) : bool :=
  match op with End => true | _ => false end.

(** The stream invariant of the specification: one terminal event is
    written, the stream is closed once, and the closing is the last call. *)
Definition one_terminal_then_closed (log : list res_op) : bool :=
  Nat.eqb (length (filter is_terminal log)) 1
  && Nat.eqb (length (filter is_end log)) 1
  && match rev log with End :: _ => true | _ => false end.

(** [op] commits the headers of an event stream. *)
Definition is_sse_head (op : res_op) : bool :=
  match op with
  | WriteHead _ headers =>
      existsb (fun h => String.eqb (fst h) "Content-Type"
                        && String.eqb (snd h) "text/event-stream") headers
  | _ => false
  end.

(** An [error] event delivered in SSE framing: the event-stream headers
    were written, and a frame of type [error]. *)
Definition sse_error_termination (log : list res_op) : bool :=
  existsb is_sse_head log && existsb (writes "error") log.

(** The OllamaStatus shape as the specification gives it:
    [{ connected: bool, models: [string], hasRequiredModel: bool,
       requiredModel: string, error?: string }]. *)
Definition is_OllamaStatus (v : value number) : bool :=
  match v with
  | VObj fields =>
      match Js.lookup "connected" fields with Some (VBool _) => true | _ => false end
      && match Js.lookup "models" fields with
         | Some (VArr items) =>
             forallb (fun x => match x with VStr _ => true | _ => false end) items
         | _ => false
         end
      && match Js.lookup "hasRequiredModel" fields with Some (VBool _) => true | _ => false end
      && match Js.lookup "requiredModel" fields with Some (VStr _) => true | _ => false end
      && match Js.lookup "error" fields with
         | None | Some (VStr _) => true
         | _ => false
         end
  | _ => false
  end.

(** The two payloads of the status handler. *)
Definition connected_payload (names : list (value number)) (has : bool) : value number :=
  VObj [("connected", VBool true);
        ("models", VArr names);
        ("hasRequiredModel", VBool has);
        ("requiredModel", VStr (MODEL_NAME env))].

Definition disconnected_payload (msg : string) : value number :=
  VObj [("connected", VBool false);
        ("error", VStr msg);
        ("requiredModel", VStr (MODEL_NAME env))].

(** The names of a model list as upstream documents it,
    [{models: [{name, ...}]}]: every entry an object with a string [name]. *)
Fixpoint model_names (items : list (value number)) : option (list string) :=
  match items with
  | [] => Some []
  | VObj fields :: rest =>
      match Js.lookup "name" fields, model_names rest with
      | Some (VStr n), Some ns => Some (n :: ns)
      | _, _ => None
      end
  | _ :: _ => None
  end.

(** A record of the upstream stream, [{response?, done}]: an object whose
    [response], when present, is a string and whose [done] is a boolean.
    Its fragment (empty when absent) and its completion flag. *)
Definition record_of (v : value number) : option (string * bool) :=
  match v with
  | VObj fields =>
      match Js.lookup "response" fields, Js.lookup "done" fields with
      | Some (VStr f), Some (VBool d) => Some (f, d)
      | None, Some (VBool d) => Some (EmptyString, d)
      | _, _ => None
      end
  | _ => None
  end.

(** The record a line carries; a blank line carries none. *)
Definition line_record (line : string) : option (string * bool) :=
  if Str.is_empty (Str.trim line) then None
  else match JSON_parse line with
       | Some v => record_of v
       | None => None
       end.

(** Every line of the chunk is blank or a well-formed record. *)
Definition well_formed_chunk (chunk : string) : bool :=
  forallb (fun line => Str.is_empty (Str.trim line)
                       || match line_record line with Some _ => true | None => false end)
    (Str.split_lines chunk).

Definition chunk_records (chunk : string) : list (string * bool) :=
  flat_map (fun line => match line_record line with Some r => [r] | None => [] end)
    (Str.split_lines chunk).

(** The non-empty fragments of a list of records, in order. *)
Definition fragments (records : list (string * bool)) : list string :=
  filter (fun f => negb (Str.is_empty f)) (map fst records).

(** The calls of a log that write a [chunk] frame. *)
Definition chunk_writes (log : list res_op) : list res_op := filter (writes "chunk") log.

(** The text fragment a call adds to the accumulator: the content of a
    [chunk] frame, nothing otherwise. *)
Definition fragment_of (op : res_op) : string :=
  match op with
  | Write e =>
      if writes "chunk" op then
        match Js.to_string (field "content" e) with Ok s => s | Throw _ => EmptyString end
      else EmptyString
  | _ => EmptyString
  end.

(** Concatenation of a list of strings. *)
Definition cat (l : list string) : string := fold_right String.append EmptyString l.

(** The accumulator after the calls of [log]: its fragments, concatenated. *)
Definition accumulated (log : list res_op) : string := cat (map fragment_of log).

(** What the relay does with a list of records, from the accumulator
    [acc]: a [chunk] frame for a non-empty fragment, a [complete] frame and
    the closing for a completion flag. *)
Fixpoint relayed (text : value number) (acc : string) (records : list (string * bool))
  : list res_op :=
  match records with
  | [] => []
  | (f, d) :: rest =>
      (if Str.is_empty f then [] else [Write (chunk_event (VStr f) (acc ++ f))])
      ++ (if d then [Write (complete_event (acc ++ f) text); End] else [])
      ++ relayed text (acc ++ f) rest
  end.

(** The accumulator at each completion flag of a list of records, from
    [acc]. *)
Fixpoint completions (acc : string) (records : list (string * bool)) : list string :=
  match records with
  | [] => []
  | (f, d) :: rest => (if d then [acc ++ f] else []) ++ completions (acc ++ f) rest
  end.

(** The [chunk] frames of a list of non-empty fragments, from [acc]. *)
Fixpoint chunk_seq (acc : string) (frags : list string) : list res_op :=
  match frags with
  | [] => []
  | f :: rest => Write (chunk_event (VStr f) (acc ++ f)) :: chunk_seq (acc ++ f) rest
  end.

(** Every [complete] frame of [log] carries the trimmed accumulator, which
    starts at [acc], and the text. *)
Fixpoint completes_carry (text : value number) (acc : string) (log : list res_op) : Prop :=
  match log with
  | [] => True
  | op :: rest =>
      (writes "complete" op = true -> op = Write (complete_event acc text))
      /\ completes_carry text (acc ++ fragment_of op) rest
  end.

(** The [fullContent] of a written frame. *)
Definition full_content (op : res_op) : string :=
  match op with
  | Write e => match field "fullContent" e with VStr s => s | _ => EmptyString end
  | _ => EmptyString
  end.

Definition is_close (ev : event) : bool :=
  match ev with ClientClose => true | _ => false end.

End Vocabulary.

(** ** Further vocabulary: the relay on arbitrary input *)

Section RelayVocabulary.
Context {R : Runtime}.

(** [JSON.parse(line)] returns. *)
Definition parses (line : string) : bool :=
  match JSON_parse line with Some _ => true | None => false end.


(** Neither a terminal frame nor the closing. *)
Definition is_plain (op : res_op) : bool := negb (is_terminal op) && negb (is_end op).


(** What a call on the response is, read off the call itself: the
    event-stream head, a frame by its [type], the closing. *)
Definition describe (op : res_op) : string :=
  match op with
  | Status _ => "status"
  | Json _ => "json"
  | WriteHead _ _ => if is_sse_head op then "event-stream head" else "head"
  | Write e => match event_type e with Some k => k | None => "frame" end
  | End => "end"
  end.

(** The [content] and [fullContent] of the [chunk] frames of a list of
    fragments, from [acc]. *)
Fixpoint chunk_pairs (acc : string) (frags : list string)
  : list (value number * value number) :=
  match frags with
  | [] => []
  | f :: rest => (VStr f, VStr (acc ++ f)) :: chunk_pairs (acc ++ f) rest
  end.

(** Two relays that differ at most in the [destroyed] flag. *)
Definition same_output (a b : relay) : Prop :=
  out a = out b /\ fullResponse a = fullResponse b.


Definition is_string (v : value number) : bool :=
  match v with VStr _ => true | _ => false end.

End RelayVocabulary.

Section AnswerVocabulary.
Context {R : Runtime}.
Variable env : string -> option string.

(** [error.code === 'ECONNREFUSED'] *)
Definition is_refused (e : js_error) : bool :=
  match code e with
  | Some c => String.eqb c "ECONNREFUSED"
  | None => false
  end.

(** The two answers of the catch block of POST /api/summarize. *)
Definition refused_answer : list res_op :=
  [Status 503;
   Json (VObj [("error", VStr "Cannot connect to Ollama. Please ensure Ollama is running locally.");
               ("details", VStr ("Trying to connect to: " ++ OLLAMA_URL env))])].

Definition failed_answer (details : string) : list res_op :=
  [Status 500;
   Json (VObj [("error", VStr "Failed to generate summary");
               ("details", VStr details)])].

Definition caught_answer (e : js_error) : list res_op :=
  if is_refused e then refused_answer else failed_answer (message e).

Definition success_answer (summary : string) (text : value number) : list res_op :=
  [Json (VObj [("success", VBool true);
               ("summary", VStr summary);
               ("originalText", text)])].

(** The log of a relay that wrote the headers and the [start] frame. *)
Definition opened_log : list res_op := [WriteHead 200 sse_headers; Write start_event].

Definition idle (log : list res_op) : relay :=
  {| out := log; fullResponse := EmptyString; destroyed := false |}.

End AnswerVocabulary.

(** ** Further vocabulary: strings *)

(** Every character of the string is white space. *)
Fixpoint all_ws (s : string) : bool :=
  match s with
  | EmptyString => true
  | String c r => Str.is_ws c && all_ws r
  end.

(** The string has no line feed. *)
Fixpoint no_LF (s : string) : bool :=
  match s with
  | EmptyString => true
  | String c r => negb (Ascii.eqb c Str.LF) && no_LF r
  end.

Fixpoint count_LF (s : string) : nat :=
  match s with
  | EmptyString => O
  | String c r => (if Ascii.eqb c Str.LF then 1 else 0) + count_LF r
  end.

(** ** Further vocabulary: the client *)

Section ClientVocabulary.
Context {R : Runtime}.

(** The final and the interim segments an event brings. *)
Definition final_segments (ev : App.speech_event) : list string :=
  map App.transcript (filter App.isFinal (skipn (App.resultIndex ev) (App.results ev))).

Definition interim_segments (ev : App.speech_event) : list string :=
  map App.transcript
    (filter (fun r => negb (App.isFinal r)) (skipn (App.resultIndex ev) (App.results ev))).

(** The component after a sequence of recognition results. *)
Definition heard (events : list App.speech_event) (st : App.state) : App.state :=
  fold_left (fun s ev => App.onresult ev s) events st.

(** The state with another [error], [summary] and [isLoading]. *)
Definition settled (summary error : value number) (st : App.state) : App.state :=
  {| App.isRecording := App.isRecording st;
     App.interimText := App.interimText st;
     App.transcribedText := App.transcribedText st;
     App.summary := summary;
     App.isLoading := false;
     App.error := error;
     App.ollamaStatus := App.ollamaStatus st;
     App.recognition := App.recognition st |}.

End ClientVocabulary.

(** ** Fixtures: concrete requests and upstream behaviours, on the
    reference runtime with the default configuration *)

Module Fixture.

Definition env0 : string -> option string := fun _ => None.

Definition request (t : string) : value RefJson.double := VObj [("text", VStr t)].

(** An upstream that accepts the streaming request. *)
Definition accepts : upstream_call -> result unit := fun _ => Ok tt.

(** An upstream that answers every generation request with [generated]. *)
Definition answers (generated : string) : upstream_call -> result (value RefJson.double) :=
  fun _ => Ok (VObj [("response", VStr generated)]).

(** An upstream that lists the models [names]. *)
Definition lists (names : list string) : upstream_call -> result (value RefJson.double) :=
  fun _ => Ok (VObj [("models", VArr (map (fun n => VObj [("name", VStr n)]) names))]).

Definition refusal : js_error :=
  {| code := Some "ECONNREFUSED"; message := "connect ECONNREFUSED 127.0.0.1:11434" |}.

Definition timeout : js_error :=
  {| code := Some "ETIMEDOUT"; message := "timeout of 1000ms exceeded" |}.

(** An upstream whose requests fail with [e]. *)
Definition fails {A : Type} (e : js_error) : upstream_call -> result A := fun _ => Throw e.

(** One line of the upstream stream, line feed included. *)
Definition line (json : string) : string := RefJson.dq json ++ String Str.LF EmptyString.

(** The log of a relay that wrote the headers and the [start] frame. *)
Definition opened : list (@res_op ref_runtime) :=
  [WriteHead 200 sse_headers; Write start_event].

End Fixture.

(** ** Further fixtures *)

Module Fixture2.

(** The component after a recording that left the transcript [t], the
    status check having found upstream connected. *)
Definition recorded (t : string) : @App.state ref_runtime :=
  {| App.isRecording := false;
     App.interimText := EmptyString;
     App.transcribedText := t;
     App.summary := VStr EmptyString;
     App.isLoading := false;
     App.error := VStr EmptyString;
     App.ollamaStatus := Some (connected_payload Fixture.env0 [VStr "mistral:latest"] true);
     App.recognition := true |}.

(** Two records in one chunk, the completion record in the next. *)
Definition two_then_done : list string :=
  [Fixture.line "{'response':'Sum','done':false}"
   ++ Fixture.line "{'response':'mary.','done':false}";
   Fixture.line "{'done':true}"].

(** Two records without completion flag. *)
Definition two_open : list string :=
  [Fixture.line "{'response':'Sum','done':false}";
   Fixture.line "{'response':'mary.','done':false}"].

(** A completion record followed by one more record. *)
Definition done_then_more : list string :=
  [Fixture.line "{'response':'Hi','done':true}";
   Fixture.line "{'response':' there','done':false}"].

(** An upstream that answers an error object, without [response]. *)
Definition model_not_found : value RefJson.double :=
  VObj [("error", VStr "model not found")].

(** A model list with the required model first and a [null] entry. *)
Definition listing_with_null : value RefJson.double :=
  VObj [("models", VArr [VObj [("name", VStr "mistral:latest")]; VNull])].

Definition empty_object : value RefJson.double := VObj [].

(** An upstream that answers [data] to every request. *)
Definition gives (data : value RefJson.double)
  : upstream_call -> result (value RefJson.double) := fun _ => Ok data.

End Fixture2.

(** * Properties *)

(** ** Strings *)

Lemma append_nil_r (s : string) : s ++ "" = s.
Proof. induction s as [|c s IH]; simpl; [reflexivity | now rewrite IH]. Qed.

Lemma append_assoc (a b c : string) : (a ++ b) ++ c = a ++ (b ++ c).
Proof. induction a as [|x a IH]; simpl; [reflexivity | now rewrite IH]. Qed.

Lemma is_empty_true (s : string) : Str.is_empty s = true <-> s = "".
Proof. destruct s; simpl; split; congruence. Qed.

Lemma is_empty_false (s : string) : Str.is_empty s = false <-> s <> "".
Proof. destruct s; simpl; split; congruence. Qed.

Lemma length_zero (s : string) : Nat.eqb (String.length s) 0 = Str.is_empty s.
Proof. destruct s; reflexivity. Qed.

Lemma prefix_spec (p s : string) :
  String.prefix p s = true <-> exists post, s = p ++ post.
Proof.
  revert s; induction p as [|c p IH]; intros s; simpl.
  - split; [intros _; now exists s | intros _; destruct s; reflexivity].
  - destruct s as [|d s]; simpl.
    + split; [discriminate | intros [post H]; discriminate].
    + destruct (Ascii.ascii_dec c d) as [->|Hcd].
      * rewrite IH. split; intros [post H]; exists post; congruence.
      * split; [discriminate | intros [post H]; congruence].
Qed.

(** [includes] decides the substring relation. *)
Lemma includes_spec (hay needle : string) :
  Str.includes hay needle = true <-> Str.substring needle hay.
Proof.
  unfold Str.substring.
  induction hay as [|c hay IH].
  - cbn [Str.includes]. rewrite orb_false_r, prefix_spec. split.
    + intros [post H]. now exists "", post.
    + intros [pre [post H]]. destruct pre; [now exists post | discriminate].
  - cbn [Str.includes]. rewrite orb_true_iff, prefix_spec, IH. split.
    + intros [[post H] | [pre [post H]]].
      * now exists "", post.
      * exists (String c pre), post. simpl. now rewrite H.
    + intros [pre [post H]]. destruct pre as [|d pre].
      * left. now exists post.
      * right. exists pre, post. simpl in H. congruence.
Qed.

Lemma trim_empty : Str.trim "" = "".
Proof. reflexivity. Qed.

(** ** The synchronous handlers *)

Section SyncProperties.
Context {R : Runtime}.
Variable env : string -> option string.

Lemma destructure_get (name : string) (v x : value number) (k : string) :
  Js.get v k = Ok x -> Js.destructure name v k = Ok x.
Proof. destruct v; cbn; intros H; try discriminate; exact H. Qed.

Lemma text_missing_blank (t : string) :
  Str.trim t = "" -> text_missing (VStr t) = Ok true.
Proof.
  intros H. unfold text_missing. simpl.
  destruct (Str.is_empty t); simpl; [reflexivity|].
  now rewrite H.
Qed.

Lemma text_missing_present (t : string) :
  Str.trim t <> "" -> text_missing (VStr t) = Ok false.
Proof.
  intros H. unfold text_missing. simpl.
  destruct t as [|c t]; [now elim H|]. simpl negb.
  cbn [negb]. rewrite length_zero.
  apply is_empty_false in H. now rewrite H.
Qed.

Lemma text_missing_falsy (text : value number) :
  Js.truthy text = false -> text_missing text = Ok true.
Proof. intros H. unfold text_missing. now rewrite H. Qed.

(** C5. POST /api/summarize with an empty or whitespace-only text answers
    HTTP 400 with an error body, and sends nothing upstream. *)
Theorem summarize_blank_text_400
  (upstream : upstream_call -> result (value number)) (body : value number) (t : string) :
  Js.get body "text" = Ok (VStr t) ->
  Str.trim t = "" ->
  summarize env upstream body init
    = (Ok tt, {| res := [Status 400; required_error]; calls := [] |})
  /\ http_status (res (snd (summarize env upstream body init))) = Some 400.
Proof.
  intros Hget Hblank.
  assert (E : summarize env upstream body init
              = (Ok tt, {| res := [Status 400; required_error]; calls := [] |})).
  { unfold summarize, try_catch, bind, lift.
    rewrite (destructure_get "req.body" _ _ _ Hget), (text_missing_blank t Hblank). reflexivity. }
  split; [exact E | now rewrite E].
Qed.

(** C4. With a text that is not empty after trimming and an upstream that
    answers with a generated string, POST /api/summarize answers
    [success: true], the trimmed generated string as [summary] and the text
    itself as [originalText], after exactly one upstream request, made with
    [stream = false]. *)
Theorem summarize_success
  (upstream : upstream_call -> result (value number)) (body data : value number)
  (t s : string) :
  Js.get body "text" = Ok (VStr t) ->
  Str.trim t <> "" ->
  upstream (generate_call env (VStr t) false) = Ok data ->
  Js.get data "response" = Ok (VStr s) ->
  summarize env upstream body init
    = (Ok tt,
       {| res := [Json (VObj [("success", VBool true);
                              ("summary", VStr (Str.trim s));
                              ("originalText", VStr t)])];
          calls := [generate_call env (VStr t) false] |})
  /\ http_status (res (snd (summarize env upstream body init))) = Some 200
  /\ stream (generate env (VStr t) false) = false.
Proof.
  intros Hget Htext Hup Hdata.
  assert (E : summarize env upstream body init
              = (Ok tt,
                 {| res := [Json (VObj [("success", VBool true);
                                        ("summary", VStr (Str.trim s));
                                        ("originalText", VStr t)])];
                    calls := [generate_call env (VStr t) false] |})).
  { unfold summarize, try_catch, bind, lift, await.
    rewrite (destructure_get "req.body" _ _ _ Hget), (text_missing_present t Htext).
    unfold generate_call in Hup. cbn [init calls res app].
    rewrite Hup, Hdata. reflexivity. }
  split; [exact E | split; [now rewrite E | reflexivity]].
Qed.

(** C6. With a text that is not empty after trimming and an upstream request
    that fails: a refused connection is answered HTTP 503 with an error
    body whose details name the configured upstream URL; any other failure
    is answered HTTP 500 with the message of the upstream error. *)
Theorem summarize_upstream_failure
  (upstream : upstream_call -> result (value number)) (body : value number)
  (t : string) (e : js_error) :
  Js.get body "text" = Ok (VStr t) ->
  Str.trim t <> "" ->
  upstream (generate_call env (VStr t) false) = Throw e ->
  let log := res (snd (summarize env upstream body init)) in
  (code e = Some "ECONNREFUSED" ->
     log = [Status 503;
            Json (VObj [("error", VStr "Cannot connect to Ollama. Please ensure Ollama is running locally.");
                        ("details", VStr ("Trying to connect to: " ++ OLLAMA_URL env))])]
     /\ http_status log = Some 503
     /\ Str.substring (OLLAMA_URL env) ("Trying to connect to: " ++ OLLAMA_URL env))
  /\ (code e <> Some "ECONNREFUSED" ->
     log = [Status 500;
            Json (VObj [("error", VStr "Failed to generate summary");
                        ("details", VStr (message e))])]
     /\ http_status log = Some 500).
Proof.
  intros Hget Htext Hup log.
  assert (E : summarize env upstream body init
              = (if match code e with
                    | Some c => String.eqb c "ECONNREFUSED"
                    | None => false
                    end
                 then (Ok tt,
                       {| res := [Status 503;
                                  Json (VObj [("error", VStr "Cannot connect to Ollama. Please ensure Ollama is running locally.");
                                              ("details", VStr ("Trying to connect to: " ++ OLLAMA_URL env))])];
                          calls := [generate_call env (VStr t) false] |})
                 else (Ok tt,
                       {| res := [Status 500;
                                  Json (VObj [("error", VStr "Failed to generate summary");
                                              ("details", VStr (message e))])];
                          calls := [generate_call env (VStr t) false] |}))).
  { unfold summarize, try_catch, bind, lift, await.
    rewrite (destructure_get "req.body" _ _ _ Hget), (text_missing_present t Htext).
    unfold generate_call in Hup. cbn [init calls res app].
    rewrite Hup.
    destruct (match code e with Some c => String.eqb c "ECONNREFUSED" | None => false end);
      reflexivity. }
  subst log. rewrite E. split.
  - intros Hc. rewrite Hc, String.eqb_refl. cbn [snd res].
    repeat split. exists "Trying to connect to: ", "". now rewrite append_nil_r.
  - intros Hc.
    destruct (code e) as [c|] eqn:Ec.
    + destruct (String.eqb_spec c "ECONNREFUSED") as [->|Hne]; [now elim Hc|].
      cbn [snd res]. now split.
    + cbn [snd res]. now split.
Qed.

End SyncProperties.

(** ** The status passthrough *)

Section StatusProperties.
Context {R : Runtime}.
Variable env : string -> option string.

Lemma some_has_model_names (items : list (value number)) :
  forall names, model_names items = Some names ->
  some_has_model env items
    = Ok (existsb (fun n => Str.includes n (MODEL_NAME env)) names).
Proof.
  induction items as [|m items IH]; intros names H; simpl in H.
  - injection H as <-. reflexivity.
  - destruct m as [| |mb|mn|ms|ma|fields]; try discriminate.
    destruct (Js.lookup "name" fields) as [[| |nb|nn|n|na|no]|] eqn:Hn; try discriminate.
    destruct (model_names items) as [ns|]; [|discriminate].
    injection H as <-.
    cbn [some_has_model Js.get]. rewrite Hn. cbn [Js.includes existsb].
    destruct (Str.includes n (MODEL_NAME env)); [reflexivity | now apply IH].
Qed.

Lemma map_name_names (items : list (value number)) :
  forall names, model_names items = Some names ->
  map_name items = Ok (map VStr names).
Proof.
  induction items as [|m items IH]; intros names H; simpl in H.
  - injection H as <-. reflexivity.
  - destruct m as [| |mb|mn|ms|ma|fields]; try discriminate.
    destruct (Js.lookup "name" fields) as [[| |nb|nn|n|na|no]|] eqn:Hn; try discriminate.
    destruct (model_names items) as [ns|]; [|discriminate].
    injection H as <-.
    cbn [map_name Js.get]. rewrite Hn, (IH ns eq_refl). reflexivity.
Qed.

Lemma has_model_substring (names : list string) :
  existsb (fun n => Str.includes n (MODEL_NAME env)) names = true
  <-> exists n, In n names /\ Str.substring (MODEL_NAME env) n.
Proof.
  rewrite existsb_exists. split; intros [n [Hin H]]; exists n; split; trivial;
    now apply includes_spec.
Qed.

(** Whatever upstream does, the handler sends one request and answers
    with one JSON payload, of one of two forms. *)
Lemma ollama_status_total (upstream : upstream_call -> result (value number)) :
  exists p,
    ollama_status env upstream init
      = (Ok tt, {| res := [Json p]; calls := [AxiosGet (OLLAMA_URL env ++ "/api/tags")] |})
    /\ ((exists names has, p = connected_payload env names has)
        \/ exists msg, p = disconnected_payload env msg).
Proof.
  unfold ollama_status, try_catch, bind, lift, await, res_json, on_res.
  cbn [init res calls app].
  destruct (upstream _) as [data|e] eqn:Hup.
  2:{ eexists; split; [reflexivity | right; eexists; reflexivity]. }
  destruct (Js.get data "models") as [m|e].
  2:{ eexists; split; [reflexivity | right; eexists; reflexivity]. }
  destruct (array_of "models.some" (if Js.truthy m then m else VArr [])) as [items|e].
  2:{ eexists; split; [reflexivity | right; eexists; reflexivity]. }
  destruct (some_has_model env items) as [has|e].
  2:{ eexists; split; [reflexivity | right; eexists; reflexivity]. }
  destruct (map_name items) as [names|e].
  2:{ eexists; split; [reflexivity | right; eexists; reflexivity]. }
  eexists; split; [reflexivity | left].
  exists names, has. reflexivity.
Qed.

(** C7, as amended. Every GET /api/ollama-status is answered HTTP 200 with
    one JSON payload after one upstream request. When upstream answers a
    model list, the payload is [connected: true] with the model names,
    [hasRequiredModel] (true iff some name contains the required model
    identifier) and [requiredModel], which is the OllamaStatus shape. When
    the upstream request fails, the payload is [connected: false] with the
    error message and [requiredModel], and has neither [models] nor
    [hasRequiredModel]. No other payload is ever sent. *)
Theorem ollama_status_payload (upstream : upstream_call -> result (value number)) :
  exists p,
    ollama_status env upstream init
      = (Ok tt, {| res := [Json p]; calls := [AxiosGet (OLLAMA_URL env ++ "/api/tags")] |})
    /\ http_status [Json p] = Some 200
    /\ (forall data items names,
          upstream (AxiosGet (OLLAMA_URL env ++ "/api/tags")) = Ok data ->
          Js.get data "models" = Ok (VArr items) ->
          model_names items = Some names ->
          p = connected_payload env (map VStr names)
                (existsb (fun n => Str.includes n (MODEL_NAME env)) names)
          /\ (existsb (fun n => Str.includes n (MODEL_NAME env)) names = true
              <-> exists n, In n names /\ Str.substring (MODEL_NAME env) n)
          /\ is_OllamaStatus p = true)
    /\ (forall e,
          upstream (AxiosGet (OLLAMA_URL env ++ "/api/tags")) = Throw e ->
          p = disconnected_payload env (message e)
          /\ field "models" p = VUndefined
          /\ field "hasRequiredModel" p = VUndefined)
    /\ ((exists names has, p = connected_payload env names has)
        \/ (exists msg, p = disconnected_payload env msg)).
Proof.
  destruct (ollama_status_total upstream) as [p [E Hform]].
  exists p. split; [exact E|]. split; [reflexivity|]. split; [|split].
  - intros data items names Hup Hm Hn.
    assert (p = connected_payload env (map VStr names)
                  (existsb (fun n => Str.includes n (MODEL_NAME env)) names)) as ->.
    { revert E. unfold ollama_status, try_catch, bind, lift, await, res_json, on_res.
      cbn [init res calls app]. rewrite Hup, Hm. cbn [Js.truthy array_of].
      rewrite (some_has_model_names items names Hn), (map_name_names items names Hn).
      unfold connected_payload, disconnected_payload. intros E. injection E as <-. reflexivity. }
    split; [reflexivity|]. split; [apply has_model_substring|].
    unfold connected_payload, is_OllamaStatus. cbn.
    rewrite !andb_true_r. rewrite forallb_forall. intros x Hx.
    apply in_map_iff in Hx. destruct Hx as [n [<- _]]. reflexivity.
  - intros e Hup.
    assert (p = disconnected_payload env (message e)) as ->.
    { revert E. unfold ollama_status, try_catch, bind, lift, await, res_json, on_res.
      cbn [init res calls app]. rewrite Hup.
      intros E. injection E as <-. reflexivity. }
    repeat split.
  - exact Hform.
Qed.

End StatusProperties.

(** ** The streaming handler: validation, opening, cancellation *)

Ltac on_line_paths :=
  unfold on_line;
  repeat match goal with
         | |- context [if Str.is_empty (Str.trim ?l) then _ else _] =>
             destruct (Str.is_empty (Str.trim l))
         | |- context [match JSON_parse ?l with _ => _ end] =>
             destruct (JSON_parse l)
         | |- context [match Js.get ?p "response" with _ => _ end] =>
             destruct (Js.get p "response")
         | |- context [if Js.truthy ?r then _ else _] =>
             destruct (Js.truthy r)
         | |- context [match Js.to_string ?r with _ => _ end] =>
             destruct (Js.to_string r)
         | |- context [match Js.get ?p "done" with _ => _ end] =>
             destruct (Js.get p "done")
         end.

Section StreamProperties.
Context {R : Runtime}.
Variable env : string -> option string.

Lemma open_rejected (upstream : upstream_call -> result unit) (body text : value number) :
  Js.get body "text" = Ok text ->
  text_missing text = Ok true ->
  summarize_stream_open env upstream body init
    = (Ok None, {| res := [Status 400; required_error]; calls := [] |}).
Proof.
  intros Hget Hmiss.
  unfold summarize_stream_open, try_catch, bind, lift.
  now rewrite (destructure_get "req.body" _ _ _ Hget), Hmiss.
Qed.

Lemma open_relaying (upstream : upstream_call -> result unit) (body text : value number) :
  Js.get body "text" = Ok text ->
  text_missing text = Ok false ->
  upstream (generate_call env text true) = Ok tt ->
  summarize_stream_open env upstream body init
    = (Ok (Some text),
       {| res := [WriteHead 200 sse_headers; Write start_event];
          calls := [generate_call env text true] |}).
Proof.
  intros Hget Hmiss Hup.
  unfold summarize_stream_open, try_catch, bind, lift, await, res_write, on_res, ret.
  rewrite (destructure_get "req.body" _ _ _ Hget), Hmiss. cbn [init res calls app].
  unfold generate_call in Hup. now rewrite Hup.
Qed.

Lemma stream_rejected (upstream : upstream_call -> result unit)
  (body text : value number) (events : list event) :
  Js.get body "text" = Ok text ->
  text_missing text = Ok true ->
  summarize_stream env upstream body events
    = ({| out := [Status 400; required_error];
          fullResponse := "";
          destroyed := false |}, []).
Proof.
  intros Hget Hmiss. unfold summarize_stream.
  now rewrite (open_rejected upstream body text Hget Hmiss).
Qed.

Lemma stream_relaying (upstream : upstream_call -> result unit)
  (body text : value number) (events : list event) :
  Js.get body "text" = Ok text ->
  text_missing text = Ok false ->
  upstream (generate_call env text true) = Ok tt ->
  summarize_stream env upstream body events
    = (run_relay text
         {| out := [WriteHead 200 sse_headers; Write start_event];
            fullResponse := "";
            destroyed := false |} events,
       [generate_call env text true]).
Proof.
  intros Hget Hmiss Hup. unfold summarize_stream.
  now rewrite (open_relaying upstream body text Hget Hmiss Hup).
Qed.

(** C2, as amended. POST /api/summarize-stream with an empty or
    whitespace-only text is answered at once with HTTP 400 and the JSON
    error body: no event-stream headers are written, no frame is written,
    and nothing is sent upstream. *)
Theorem summarize_stream_blank_text_400
  (upstream : upstream_call -> result unit) (body : value number) (t : string)
  (events : list event) :
  Js.get body "text" = Ok (VStr t) ->
  Str.trim t = "" ->
  summarize_stream env upstream body events
    = ({| out := [Status 400; required_error];
          fullResponse := "";
          destroyed := false |}, [])
  /\ http_status (out (fst (summarize_stream env upstream body events))) = Some 400
  /\ sse_error_termination (out (fst (summarize_stream env upstream body events))) = false.
Proof.
  intros Hget Hblank.
  rewrite (stream_rejected upstream body (VStr t) events Hget (text_missing_blank t Hblank)).
  repeat split.
Qed.

(** C10. A request whose body has no [text] field, or a falsy one
    ([null], [false], a zero, the empty string), is answered by both
    summarize handlers with the HTTP 400 error they give for an empty text:
    no event-stream headers are written and nothing is sent upstream. *)
Theorem missing_text_rejected
  (upstream : upstream_call -> result (value number))
  (upstream_s : upstream_call -> result unit)
  (fields : list (string * value number)) (events : list event) :
  match Js.lookup "text" fields with
  | Some text => Js.truthy text = false
  | None => True
  end ->
  summarize env upstream (VObj fields) init
    = (Ok tt, {| res := [Status 400; required_error]; calls := [] |})
  /\ summarize_stream env upstream_s (VObj fields) events
    = ({| out := [Status 400; required_error];
          fullResponse := "";
          destroyed := false |}, [])
  /\ summarize env upstream (VObj fields) init
     = summarize env upstream (VObj [("text", VStr "")]) init
  /\ summarize_stream env upstream_s (VObj fields) events
     = summarize_stream env upstream_s (VObj [("text", VStr "")]) events
  /\ existsb is_sse_head [Status 400; required_error] = false.
Proof.
  intros Hfalsy.
  assert (exists text, Js.get (VObj fields) "text" = Ok text /\ Js.truthy text = false)
    as [text [Hget Hf]].
  { cbn [Js.get]. destruct (Js.lookup "text" fields) as [v|]; eauto. }
  assert (E1 : summarize env upstream (VObj fields) init
               = (Ok tt, {| res := [Status 400; required_error]; calls := [] |})).
  { unfold summarize, try_catch, bind, lift.
    now rewrite (destructure_get "req.body" _ _ _ Hget), (text_missing_falsy text Hf). }
  assert (E2 := stream_rejected upstream_s (VObj fields) text events Hget
                  (text_missing_falsy text Hf)).
  rewrite E1, E2. repeat split.
Qed.

Lemma on_line_destroyed (text : value number) (st : relay) (line : string) :
  destroyed (on_line text st line) = destroyed st.
Proof. on_line_paths; reflexivity. Qed.

Lemma run_relay_destroyed (text : value number) (events : list event) :
  forall st,
    destroyed (run_relay text st events)
    = destroyed st || (close_on_disconnect && existsb is_close events).
Proof.
  assert (Hline : forall lines st,
             destroyed (fold_left (on_line text) lines st) = destroyed st).
  { induction lines as [|l lines IH]; intros st; [reflexivity|].
    cbn [fold_left]. rewrite IH. apply on_line_destroyed. }
  induction events as [|ev events IH]; intros st.
  - cbn. now rewrite andb_false_r, orb_false_r.
  - change (run_relay text st (ev :: events))
      with (run_relay text (dispatch text st ev) events).
    rewrite IH.
    destruct ev; cbn [dispatch existsb is_close orb].
    + unfold on_data. now rewrite Hline.
    + reflexivity.
    + unfold on_end. destruct (negb (headersSent (out st))); reflexivity.
    + destruct close_on_disconnect; cbn; [now rewrite orb_true_r | reflexivity].
Qed.

(** The listener of [close] runs, and destroys the upstream stream, only
    on a runtime whose request emits [close] when the client disconnects:
    on the others the stream of a running relay is never destroyed. *)
Lemma relay_destroyed_on_close
  (upstream : upstream_call -> result unit) (body : value number) (t : string)
  (events : list event) :
  Js.get body "text" = Ok (VStr t) ->
  Str.trim t <> "" ->
  upstream (generate_call env (VStr t) true) = Ok tt ->
  destroyed (fst (summarize_stream env upstream body events))
  = close_on_disconnect && existsb is_close events.
Proof.
  intros Hget Htext Hup.
  rewrite (stream_relaying upstream body (VStr t) events Hget
             (text_missing_present t Htext) Hup).
  cbn [fst]. now rewrite run_relay_destroyed.
Qed.

End StreamProperties.

(** ** The relay on well-formed records *)

Section RelayProperties.
Context {R : Runtime}.
Variable env : string -> option string.
Variable text : value number.

Lemma relay_eq (a b : relay) :
  out a = out b -> fullResponse a = fullResponse b -> destroyed a = destroyed b -> a = b.
Proof. destruct a, b; simpl; intros; subst; reflexivity. Qed.

Ltac same_relay :=
  apply relay_eq; cbn;
  rewrite <- ?app_assoc; cbn;
  rewrite ?append_nil_r, ?app_nil_r; reflexivity.

Lemma on_line_blank (st : relay) (line : string) :
  Str.is_empty (Str.trim line) = true -> on_line text st line = st.
Proof. intros H. unfold on_line. now rewrite H. Qed.

(** A line carrying a record is relayed as that record. *)
Lemma on_line_record (st : relay) (line : string) (f : string) (d : bool) :
  line_record line = Some (f, d) ->
  on_line text st line
    = {| out := out st ++ relayed text (fullResponse st) [(f, d)];
         fullResponse := fullResponse st ++ f;
         destroyed := destroyed st |}.
Proof.
  unfold line_record, on_line.
  destruct (Str.is_empty (Str.trim line)); [discriminate|].
  destruct (JSON_parse line) as [v|]; [|discriminate].
  destruct v as [| |vb|vn|vs|va|fields]; try discriminate.
  cbn [record_of Js.get].
  destruct (Js.lookup "response" fields) as [[| |rb|rn|r|ra|ro]|];
    destruct (Js.lookup "done" fields) as [[| |b|dn|ds|da|dob]|]; try discriminate;
    intros H; injection H as <- <-.
  - cbn [Js.truthy Js.to_string relayed].
    destruct (Str.is_empty r) eqn:Hr; cbn [negb].
    + apply is_empty_true in Hr. subst r.
      destruct b; same_relay.
    + destruct b; same_relay.
  - cbn [Js.truthy relayed Str.is_empty].
    destruct b; same_relay.
Qed.

Lemma relayed_app (r1 r2 : list (string * bool)) :
  forall acc,
    relayed text acc (r1 ++ r2)
    = (relayed text acc r1 ++ relayed text (acc ++ cat (map fst r1)) r2)%list.
Proof.
  induction r1 as [|[f d] r1 IH]; intros acc.
  - cbn. now rewrite append_nil_r.
  - cbn [app relayed map fst cat fold_right]. fold (cat (map fst r1)).
    rewrite IH, <- !app_assoc, append_assoc. reflexivity.
Qed.

Lemma cat_app (l1 l2 : list string) : cat (l1 ++ l2) = cat l1 ++ cat l2.
Proof.
  induction l1 as [|x l1 IH]; [reflexivity|].
  cbn [app cat fold_right]. fold (cat (l1 ++ l2)). fold (cat l1).
  now rewrite IH, append_assoc.
Qed.

Lemma lines_records (lines : list string) :
  forall st,
    forallb (fun line => Str.is_empty (Str.trim line)
                         || match line_record line with Some _ => true | None => false end)
      lines = true ->
    let records :=
      flat_map (fun line => match line_record line with Some r => [r] | None => [] end)
        lines in
    fold_left (on_line text) lines st
    = {| out := out st ++ relayed text (fullResponse st) records;
         fullResponse := fullResponse st ++ cat (map fst records);
         destroyed := destroyed st |}.
Proof.
  induction lines as [|l lines IH]; intros st Hwf; cbn [fold_left flat_map].
  - apply relay_eq; cbn; now rewrite ?app_nil_r, ?append_nil_r.
  - cbn [forallb] in Hwf. apply andb_true_iff in Hwf. destruct Hwf as [Hl Hwf].
    rewrite (IH _ Hwf).
    destruct (line_record l) as [[f d]|] eqn:Hrec.
    + rewrite (on_line_record st l f d Hrec). apply relay_eq; cbn [out fullResponse destroyed].
      * rewrite (relayed_app [(f, d)]). cbn [map fst cat fold_right].
        now rewrite append_nil_r, <- app_assoc.
      * rewrite map_app, cat_app. cbn [map fst cat fold_right].
        now rewrite append_nil_r, append_assoc.
      * reflexivity.
    + rewrite orb_false_r in Hl. rewrite (on_line_blank st l Hl). reflexivity.
Qed.

Lemma on_data_records (st : relay) (chunk : string) :
  well_formed_chunk chunk = true ->
  on_data text st chunk
  = {| out := out st ++ relayed text (fullResponse st) (chunk_records chunk);
       fullResponse := fullResponse st ++ cat (map fst (chunk_records chunk));
       destroyed := destroyed st |}.
Proof. intros H. exact (lines_records (Str.split_lines chunk) st H). Qed.

(** The relay of a stream of well-formed chunks is the relay of its
    records. *)
Lemma run_relay_records (chunks : list string) :
  forall st,
    forallb well_formed_chunk chunks = true ->
    run_relay text st (map UpstreamData chunks)
    = {| out := out st ++ relayed text (fullResponse st) (flat_map chunk_records chunks);
         fullResponse := fullResponse st ++ cat (map fst (flat_map chunk_records chunks));
         destroyed := destroyed st |}.
Proof.
  induction chunks as [|c chunks IH]; intros st Hwf.
  - apply relay_eq; cbn; now rewrite ?app_nil_r, ?append_nil_r.
  - cbn [forallb] in Hwf. apply andb_true_iff in Hwf. destruct Hwf as [Hc Hwf].
    change (run_relay text st (map UpstreamData (c :: chunks)))
      with (run_relay text (on_data text st c) (map UpstreamData chunks)).
    rewrite (IH _ Hwf), (on_data_records st c Hc).
    apply relay_eq; cbn [out fullResponse destroyed flat_map].
    + now rewrite relayed_app, <- app_assoc.
    + now rewrite map_app, cat_app, append_assoc.
    + reflexivity.
Qed.

End RelayProperties.

Section RelayedFrames.
Context {R : Runtime}.
Variable text : value number.

Lemma chunk_writes_relayed (records : list (string * bool)) :
  forall acc, chunk_writes (relayed text acc records) = chunk_seq acc (fragments records).
Proof.
  unfold chunk_writes, fragments.
  induction records as [|[f d] records IH]; intros acc; [reflexivity|].
  cbn [relayed map fst filter]. rewrite !filter_app, IH.
  destruct (Str.is_empty f) eqn:Hf; destruct d; cbn.
  all: try (apply is_empty_true in Hf; subst f; now rewrite append_nil_r).
  all: reflexivity.
Qed.

Lemma chunk_seq_length (frags : list string) :
  forall acc, length (chunk_seq acc frags) = length frags.
Proof. induction frags as [|f frags IH]; intros acc; cbn; [reflexivity | now rewrite IH]. Qed.

Lemma chunk_seq_nth (frags : list string) :
  forall acc i f,
    nth_error frags i = Some f ->
    nth_error (chunk_seq acc frags) i
    = Some (Write (chunk_event (VStr f) (acc ++ cat (firstn (S i) frags)))).
Proof.
  induction frags as [|g frags IH]; intros acc i f H.
  - destruct i; discriminate.
  - destruct i as [|i].
    + cbn in H. injection H as ->. cbn. now rewrite append_nil_r.
    + cbn [nth_error chunk_seq] in *. rewrite (IH (acc ++ g) i f H).
      rewrite append_assoc. reflexivity.
Qed.

Lemma fragments_nonempty (records : list (string * bool)) :
  Forall (fun f => f <> "") (fragments records).
Proof.
  unfold fragments. apply Forall_forall. intros f Hin.
  apply filter_In in Hin. destruct Hin as [_ Hne].
  apply negb_true_iff in Hne. now apply is_empty_false.
Qed.

Lemma chunk_seq_extends (frags : list string) :
  Forall (fun f => f <> "") frags ->
  forall acc i a b,
    nth_error (map full_content (chunk_seq acc frags)) i = Some a ->
    nth_error (map full_content (chunk_seq acc frags)) (S i) = Some b ->
    exists f, f <> "" /\ b = a ++ f.
Proof.
  induction 1 as [|g frags Hg Hall IH]; intros acc i a b Ha Hb.
  - destruct i; discriminate.
  - destruct i as [|i].
    + destruct Hall as [|h frags Hh _]; [discriminate|].
      cbn in Ha, Hb. injection Ha as <-. injection Hb as <-.
      now exists h.
    + cbn [chunk_seq map nth_error] in Ha, Hb. exact (IH _ _ _ _ Ha Hb).
Qed.

Lemma carry_relayed (records : list (string * bool)) :
  forall acc, completes_carry text acc (relayed text acc records).
Proof.
  induction records as [|[f d] records IH]; intros acc; [exact I|].
  cbn [relayed].
  destruct (Str.is_empty f) eqn:Hf.
  - apply is_empty_true in Hf. subst f. rewrite append_nil_r.
    destruct d; cbn; rewrite ?append_nil_r; repeat split; auto; discriminate.
  - destruct d; cbn; rewrite ?append_nil_r; repeat split; auto; discriminate.
Qed.

Lemma carry_split (pre : list res_op) :
  forall acc log e post,
    completes_carry text acc log ->
    log = (pre ++ Write e :: post)%list ->
    event_type e = Some "complete" ->
    e = complete_event (acc ++ accumulated pre) text.
Proof.
  induction pre as [|op pre IH]; intros acc log e post Hc -> He.
  - cbn in Hc. destruct Hc as [Hc _].
    assert (Hw : writes "complete" (Write e) = true) by (cbn; now rewrite He).
    specialize (Hc Hw). injection Hc as ->. cbn. now rewrite append_nil_r.
  - cbn [app completes_carry] in Hc. destruct Hc as [_ Hc].
    rewrite (IH _ _ e post Hc eq_refl He).
    unfold accumulated. cbn [map cat fold_right]. now rewrite append_assoc.
Qed.

Lemma completes_relayed (records : list (string * bool)) :
  forall acc,
    length (filter (writes "complete") (relayed text acc records))
    = length (filter snd records).
Proof.
  induction records as [|[f d] records IH]; intros acc; [reflexivity|].
  cbn [relayed]. rewrite !filter_app, !length_app, IH.
  destruct (Str.is_empty f); destruct d; reflexivity.
Qed.

Lemma completions_relayed (records : list (string * bool)) :
  forall acc,
    map (fun op => (frame_field "content" op, frame_field "originalText" op))
      (filter (writes "complete") (relayed text acc records))
    = map (fun a => (VStr (Str.trim a), text)) (completions acc records).
Proof.
  induction records as [|[f d] records IH]; intros acc; [reflexivity|].
  cbn [relayed completions]. rewrite !filter_app, !map_app, IH.
  destruct (Str.is_empty f); destruct d; reflexivity.
Qed.

End RelayedFrames.

Section RelayClaim.
Context {R : Runtime}.
Variable env : string -> option string.

(** C8, as amended. On a stream of well-formed records that arrive in
    whole lines (no record straddles two chunks), the relay writes one
    [chunk] frame for each record with a non-empty fragment, whose
    [content] is that fragment and whose [fullContent] is the concatenation
    of the fragments so far; the accumulated content of each [chunk] frame
    extends that of the one before by a non-empty fragment; one [complete]
    frame is written for each record with the completion flag, and every
    [complete] frame has as [content] the trimmed accumulator and as
    [originalText] the text of the request. *)
Theorem relay_chunks_accumulate
  (upstream : upstream_call -> result unit) (body : value number) (t : string)
  (chunks : list string) :
  Js.get body "text" = Ok (VStr t) ->
  Str.trim t <> "" ->
  upstream (generate_call env (VStr t) true) = Ok tt ->
  forallb well_formed_chunk chunks = true ->
  let log := out (fst (summarize_stream env upstream body (map UpstreamData chunks))) in
  let records := flat_map chunk_records chunks in
  let frags := fragments records in
  length (chunk_writes log) = length frags
  /\ (forall i f,
        nth_error frags i = Some f ->
        exists op,
          nth_error (chunk_writes log) i = Some op
          /\ op = Write (chunk_event (VStr f) (cat (firstn (S i) frags)))
          /\ frame_field "type" op = VStr "chunk"
          /\ frame_field "content" op = VStr f
          /\ frame_field "fullContent" op = VStr (cat (firstn (S i) frags)))
  /\ (forall i a b,
        nth_error (map full_content (chunk_writes log)) i = Some a ->
        nth_error (map full_content (chunk_writes log)) (S i) = Some b ->
        exists f, f <> "" /\ b = a ++ f)
  /\ length (filter (writes "complete") log) = length (filter snd records)
  /\ map (fun op => (frame_field "content" op, frame_field "originalText" op))
       (filter (writes "complete") log)
     = map (fun a => (VStr (Str.trim a), VStr t)) (completions "" records)
  /\ (forall pre e post,
        log = (pre ++ Write e :: post)%list ->
        event_type e = Some "complete" ->
        e = complete_event (accumulated pre) (VStr t)
        /\ field "content" e = VStr (Str.trim (accumulated pre))
        /\ field "originalText" e = VStr t).
Proof.
  intros Hget Htext Hup Hwf log records frags.
  assert (Hlog : log = ([WriteHead 200 sse_headers; Write start_event]
                        ++ relayed (VStr t) "" records)%list).
  { subst log.
    rewrite (stream_relaying env upstream body (VStr t) _ Hget
               (text_missing_present t Htext) Hup).
    cbn [fst]. rewrite (run_relay_records (VStr t) chunks _ Hwf). reflexivity. }
  assert (Hchunks : chunk_writes log = chunk_seq "" frags).
  { rewrite Hlog. unfold chunk_writes. rewrite filter_app.
    exact (chunk_writes_relayed (VStr t) records ""). }
  rewrite Hchunks. split; [apply chunk_seq_length|].
  split; [|split; [|split; [|split]]].
  - intros i f Hi. eexists. split; [exact (chunk_seq_nth frags "" i f Hi)|].
    repeat split.
  - intros i a b. apply chunk_seq_extends. apply fragments_nonempty.
  - rewrite Hlog, filter_app, length_app. cbn [filter length].
    exact (completes_relayed (VStr t) records "").
  - rewrite Hlog, filter_app, map_app.
    exact (completions_relayed (VStr t) records "").
  - intros pre e post Hsplit He.
    assert (Hc : completes_carry (VStr t) "" log).
    { rewrite Hlog. cbn. repeat split; try discriminate.
      apply carry_relayed. }
    rewrite (carry_split (VStr t) pre "" log e post Hc Hsplit He).
    repeat split.
Qed.

End RelayClaim.

(** ** The end of the upstream stream *)

Section StreamEnd.
Context {R : Runtime}.

(** Once anything was written, [res.headersSent] holds, and the listener of
    the upstream [end] does nothing. *)
Lemma on_end_after_headers (text : value number) (st : relay) :
  headersSent (out st) = true -> on_end text st = st.
Proof. intros H. unfold on_end. now rewrite H. Qed.

Lemma headersSent_app (l1 l2 : list res_op) :
  headersSent l1 = true -> headersSent (l1 ++ l2) = true.
Proof. intros H. unfold headersSent in *. rewrite existsb_app, H. reflexivity. Qed.

Lemma on_line_grows (text : value number) (st : relay) (line : string) :
  exists added, out (on_line text st line) = (out st ++ added)%list.
Proof.
  on_line_paths; cbn; rewrite <- ?app_assoc; eexists; try reflexivity;
    symmetry; apply app_nil_r.
Qed.

Lemma dispatch_grows (text : value number) (ev : event) (st : relay) :
  exists added, out (dispatch text st ev) = (out st ++ added)%list.
Proof.
  destruct ev as [chunk| | |]; cbn [dispatch].
  - unfold on_data. generalize (Str.split_lines chunk) as lines.
    intros lines. revert st.
    induction lines as [|l lines IH]; intros st; cbn [fold_left].
    + exists []. now rewrite app_nil_r.
    + destruct (IH (on_line text st l)) as [a2 H2].
      destruct (on_line_grows text st l) as [a1 H1].
      exists (a1 ++ a2)%list. now rewrite H2, H1, app_assoc.
  - unfold on_error. cbn. rewrite <- app_assoc. eexists. reflexivity.
  - unfold on_end. destruct (negb (headersSent (out st))); cbn.
    + rewrite <- app_assoc. eexists. reflexivity.
    + exists []. now rewrite app_nil_r.
  - destruct close_on_disconnect; exists []; cbn; now rewrite app_nil_r.
Qed.

Lemma run_relay_headersSent (text : value number) (events : list event) :
  forall st, headersSent (out st) = true ->
             headersSent (out (run_relay text st events)) = true.
Proof.
  induction events as [|ev events IH]; intros st H; [exact H|].
  change (run_relay text st (ev :: events))
    with (run_relay text (dispatch text st ev) events).
  apply IH. destruct (dispatch_grows text ev st) as [added ->].
  now apply headersSent_app.
Qed.

(** Whatever came before, the end of the upstream stream changes nothing
    once the relay has written its headers. *)
Lemma upstream_end_is_ignored (text : value number) (st : relay) (events : list event) :
  headersSent (out st) = true ->
  run_relay text st (events ++ [UpstreamEnd]) = run_relay text st events.
Proof.
  intros H. unfold run_relay. rewrite fold_left_app. cbn [fold_left dispatch].
  apply on_end_after_headers. now apply run_relay_headersSent.
Qed.

End StreamEnd.

(** ** Runs on the reference runtime *)

Import Fixture.

(** C1. The upstream stream delivers one record without the completion
    flag and ends: the handler has written the headers, the [start] frame
    and one [chunk] frame, and then neither a terminal frame nor the
    closing of the stream. *)
Theorem stream_end_without_done_leaves_open :
  out (fst (summarize_stream env0 accepts (request "hello")
              [UpstreamData (line "{'response':'Hi','done':false}"); UpstreamEnd]))
    = (opened ++ [Write (chunk_event (VStr "Hi") "Hi")])%list
  /\ filter is_terminal (opened ++ [Write (chunk_event (VStr "Hi") "Hi")]) = []
  /\ filter is_end (opened ++ [Write (chunk_event (VStr "Hi") "Hi")]) = []
  /\ one_terminal_then_closed (opened ++ [Write (chunk_event (VStr "Hi") "Hi")]) = false.
Proof. repeat split. Qed.

(** C3. One record, delivered whole and delivered in two chunks: whole, it
    is relayed as a [chunk] and a [complete] frame; split, both pieces fail
    to parse and nothing is relayed. *)
Theorem split_record_is_dropped :
  RefJson.dq "{'response':'Hi'," ++ line "'done':true}"
    = line "{'response':'Hi','done':true}"
  /\ out (fst (summarize_stream env0 accepts (request "hello")
                 [UpstreamData (line "{'response':'Hi','done':true}")]))
     = (opened ++ [Write (chunk_event (VStr "Hi") "Hi");
                   Write (complete_event "Hi" (VStr "hello"));
                   End])%list
  /\ out (fst (summarize_stream env0 accepts (request "hello")
                 [UpstreamData (RefJson.dq "{'response':'Hi',");
                  UpstreamData (line "'done':true}")]))
     = opened.
Proof. repeat split. Qed.

(** C2, the claim as stated fails: a whitespace-only text is answered
    with a plain HTTP 400, and no [error] event in SSE framing. *)
Lemma blank_text_is_not_an_sse_error :
  out (fst (summarize_stream env0 accepts (request "   ") []))
    = [Status 400; required_error]
  /\ sse_error_termination
       (out (fst (summarize_stream env0 accepts (request "   ") []))) = false.
Proof. split; reflexivity. Qed.

(** C7, the claim as stated fails: when upstream refuses the connection
    the payload has no [models] and no [hasRequiredModel], so it is not of
    the OllamaStatus shape. *)
Lemma failure_payload_is_not_OllamaStatus :
  res (snd (ollama_status env0 (fails refusal) init))
    = [Json (disconnected_payload env0 "connect ECONNREFUSED 127.0.0.1:11434")]
  /\ is_OllamaStatus (disconnected_payload env0 "connect ECONNREFUSED 127.0.0.1:11434")
     = false.
Proof. split; reflexivity. Qed.

(** C8, the claim as stated fails: two well-formed records, the second
    delivered in two chunks. The first is relayed; the second, which
    carries a fragment and the completion flag, writes neither a [chunk]
    frame nor a [complete] frame. *)
Lemma straddling_record_writes_no_frame :
  (line "{'response':'Sum','done':false}" ++ RefJson.dq "{'response':'mary.',")
  ++ line "'done':true}"
  = line "{'response':'Sum','done':false}" ++ line "{'response':'mary.','done':true}"
  /\ well_formed_chunk
       (line "{'response':'Sum','done':false}" ++ line "{'response':'mary.','done':true}")
     = true
  /\ chunk_records
       (line "{'response':'Sum','done':false}" ++ line "{'response':'mary.','done':true}")
     = [("Sum", false); ("mary.", true)]
  /\ chunk_writes
       (out (fst (summarize_stream env0 accepts (request "hello")
                    [UpstreamData (line "{'response':'Sum','done':false}"
                                   ++ RefJson.dq "{'response':'mary.',");
                     UpstreamData (line "'done':true}")])))
     = [Write (chunk_event (VStr "Sum") "Sum")]
  /\ filter (writes "complete")
       (out (fst (summarize_stream env0 accepts (request "hello")
                    [UpstreamData (line "{'response':'Sum','done':false}"
                                   ++ RefJson.dq "{'response':'mary.',");
                     UpstreamData (line "'done':true}")])))
     = [].
Proof. repeat split. Qed.

(** C9. The client disconnects in the middle of the stream, on Node 16 or
    later. The request emitted [close] when its body had been read, before
    the handler registered its listener after [await axios.post]: the
    listener does not run, the upstream stream is not destroyed, and the
    relay goes on writing the records that follow. On such a runtime no
    request and no sequence of events ever destroys the upstream stream. *)
Theorem disconnect_leaves_upstream_running :
  summarize_stream env0 accepts (request "hello")
    [UpstreamData (line "{'response':'Hi','done':false}");
     ClientClose;
     UpstreamData (line "{'response':' there','done':false}")]
  = ({| out := (opened ++ [Write (chunk_event (VStr "Hi") "Hi");
                           Write (chunk_event (VStr " there") "Hi there")])%list;
        fullResponse := "Hi there";
        destroyed := false |},
     [generate_call env0 (VStr "hello") true])
  /\ map describe
       (out (fst (summarize_stream env0 accepts (request "hello")
                    [UpstreamData (line "{'response':'Hi','done':false}");
                     ClientClose;
                     UpstreamData (line "{'response':' there','done':false}")])))
     = ["event-stream head"; "start"; "chunk"; "chunk"]
  /\ (forall (R : Runtime) (env : string -> option string)
             (upstream : upstream_call -> result unit) (body : value number)
             (events : list event),
        @close_on_disconnect R = false ->
        destroyed (fst (summarize_stream (R := R) env upstream body events)) = false).
Proof.
  split; [reflexivity|]. split; [reflexivity|].
  intros R env upstream body events Hnode.
  unfold summarize_stream.
  destruct (summarize_stream_open env upstream body init) as [[[text|]|e] w];
    cbn [fst]; try reflexivity.
  rewrite run_relay_destroyed, Hnode. reflexivity.
Qed.

(** ** The theorems at concrete requests *)

(** A text of two spaces. *)
Lemma summarize_blank_text_400_witness :
  Js.get (request "  ") "text" = Ok (VStr "  ")
  /\ Str.trim "  " = ""
  /\ summarize env0 (answers "unused") (request "  ") init
     = (Ok tt, {| res := [Status 400; required_error]; calls := [] |})
  /\ http_status (res (snd (summarize env0 (answers "unused") (request "  ") init)))
     = Some 400.
Proof.
  split; [reflexivity|]. split; [reflexivity|].
  apply (summarize_blank_text_400 (R := ref_runtime) env0 (answers "unused")
           (request "  ") "  "); reflexivity.
Defined.

(** The end-to-end example of the specification: the upstream answers [' Summary. ']. *)
Lemma summarize_success_witness :
  Str.trim "Hello world. This is a test." <> ""
  /\ summarize env0 (answers " Summary. ") (request "Hello world. This is a test.") init
     = (Ok tt,
        {| res := [Json (VObj [("success", VBool true);
                               ("summary", VStr (Str.trim " Summary. "));
                               ("originalText", VStr "Hello world. This is a test.")])];
           calls := [generate_call env0 (VStr "Hello world. This is a test.") false] |})
  /\ http_status
       (res (snd (summarize env0 (answers " Summary. ")
                    (request "Hello world. This is a test.") init))) = Some 200
  /\ stream (generate env0 (VStr "Hello world. This is a test.") false) = false.
Proof.
  split; [discriminate|].
  apply (summarize_success (R := ref_runtime) env0 (answers " Summary. ")
           (request "Hello world. This is a test.")
           (VObj [("response", VStr " Summary. ")])
           "Hello world. This is a test." " Summary. ");
    [reflexivity | discriminate | reflexivity | reflexivity].
Defined.

(** A refused connection. *)
Lemma summarize_upstream_failure_witness :
  (code refusal = Some "ECONNREFUSED" ->
     res (snd (summarize env0 (fails refusal) (request "Hello") init))
     = [Status 503;
        Json (VObj [("error", VStr "Cannot connect to Ollama. Please ensure Ollama is running locally.");
                    ("details", VStr ("Trying to connect to: " ++ OLLAMA_URL env0))])]
     /\ http_status (res (snd (summarize env0 (fails refusal) (request "Hello") init)))
        = Some 503
     /\ Str.substring (OLLAMA_URL env0) ("Trying to connect to: " ++ OLLAMA_URL env0))
  /\ (code refusal <> Some "ECONNREFUSED" ->
     res (snd (summarize env0 (fails refusal) (request "Hello") init))
     = [Status 500;
        Json (VObj [("error", VStr "Failed to generate summary");
                    ("details", VStr (message refusal))])]
     /\ http_status (res (snd (summarize env0 (fails refusal) (request "Hello") init)))
        = Some 500).
Proof.
  apply (summarize_upstream_failure (R := ref_runtime) env0 (fails refusal)
           (request "Hello") "Hello" refusal);
    [reflexivity | discriminate | reflexivity].
Defined.

(** A text of three spaces. *)
Lemma summarize_stream_blank_text_400_witness :
  Str.trim "   " = ""
  /\ summarize_stream env0 accepts (request "   ") [UpstreamEnd]
     = ({| out := [Status 400; required_error];
           fullResponse := "";
           destroyed := false |}, [])
  /\ http_status (out (fst (summarize_stream env0 accepts (request "   ") [UpstreamEnd])))
     = Some 400
  /\ sse_error_termination
       (out (fst (summarize_stream env0 accepts (request "   ") [UpstreamEnd]))) = false.
Proof.
  split; [reflexivity|].
  apply (summarize_stream_blank_text_400 (R := ref_runtime) env0 accepts
           (request "   ") "   " [UpstreamEnd]); reflexivity.
Defined.

(** A body without a [text] field. *)
Lemma missing_text_rejected_witness :
  Js.lookup (R := ref_runtime) "text" [("note", VStr "no text here")] = None
  /\ summarize env0 (answers "unused") (VObj [("note", VStr "no text here")]) init
     = (Ok tt, {| res := [Status 400; required_error]; calls := [] |})
  /\ summarize_stream env0 accepts (VObj [("note", VStr "no text here")]) [UpstreamEnd]
     = ({| out := [Status 400; required_error];
           fullResponse := "";
           destroyed := false |}, [])
  /\ summarize env0 (answers "unused") (VObj [("note", VStr "no text here")]) init
     = summarize env0 (answers "unused") (VObj [("text", VStr "")]) init
  /\ summarize_stream env0 accepts (VObj [("note", VStr "no text here")]) [UpstreamEnd]
     = summarize_stream env0 accepts (VObj [("text", VStr "")]) [UpstreamEnd]
  /\ existsb (is_sse_head (R := ref_runtime)) [Status 400; required_error] = false.
Proof.
  split; [reflexivity|].
  apply (missing_text_rejected (R := ref_runtime) env0 (answers "unused") accepts
           [("note", VStr "no text here")] [UpstreamEnd]).
  exact I.
Defined.

(** Two records in one chunk, the completion record in the next. *)
Lemma relay_chunks_accumulate_witness :
  forallb well_formed_chunk
    [line "{'response':'Sum','done':false}" ++ line "{'response':'mary.','done':false}";
     line "{'done':true}"] = true
  /\ chunk_writes
       (out (fst (summarize_stream env0 accepts (request "hello")
                    (map UpstreamData
                       [line "{'response':'Sum','done':false}"
                        ++ line "{'response':'mary.','done':false}";
                        line "{'done':true}"]))))
     = [Write (chunk_event (VStr "Sum") "Sum"); Write (chunk_event (VStr "mary.") "Summary.")]
  /\ map (fun op => (frame_field "content" op, frame_field "originalText" op))
       (filter (writes "complete")
          (out (fst (summarize_stream env0 accepts (request "hello")
                       (map UpstreamData
                          [line "{'response':'Sum','done':false}"
                           ++ line "{'response':'mary.','done':false}";
                           line "{'done':true}"])))))
     = [(VStr "Summary.", VStr "hello")]
  /\ (forall pre e post,
        out (fst (summarize_stream env0 accepts (request "hello")
                    (map UpstreamData
                       [line "{'response':'Sum','done':false}"
                        ++ line "{'response':'mary.','done':false}";
                        line "{'done':true}"])))
        = (pre ++ Write e :: post)%list ->
        event_type e = Some "complete" ->
        e = complete_event (accumulated pre) (VStr "hello")
        /\ field "content" e = VStr (Str.trim (accumulated pre))
        /\ field "originalText" e = VStr "hello").
Proof.
  split; [reflexivity|]. split; [reflexivity|].
  pose proof (relay_chunks_accumulate (R := ref_runtime) env0 accepts (request "hello")
                "hello"
                [line "{'response':'Sum','done':false}"
                 ++ line "{'response':'mary.','done':false}";
                 line "{'done':true}"]
                eq_refl
                (fun H : Str.trim "hello" = "" =>
                   eq_ind "hello"
                     (fun s => match s with EmptyString => False | String _ _ => True end)
                     I "" H)
                eq_refl eq_refl) as [_ [_ [_ [_ [Hmap Hcomplete]]]]].
  split; [exact Hmap | exact Hcomplete].
Defined.

(** * Further properties of the handlers *)

(** ** The synchronous handlers on every input *)

Section SyncTotal.
Context {R : Runtime}.
Variable env : string -> option string.

(** POST /api/summarize, path by path. *)
Lemma summarize_paths (upstream : upstream_call -> result (value number)) (body : value number) :
  summarize env upstream body init
  = match Js.destructure "req.body" body "text" with
    | Throw e => (Ok tt, {| res := caught_answer env e; calls := [] |})
    | Ok text =>
        match text_missing text with
        | Throw e => (Ok tt, {| res := caught_answer env e; calls := [] |})
        | Ok true => (Ok tt, {| res := [Status 400; required_error]; calls := [] |})
        | Ok false =>
            match upstream (generate_call env text false) with
            | Throw e =>
                (Ok tt, {| res := caught_answer env e;
                           calls := [generate_call env text false] |})
            | Ok data =>
                match Js.get data "response" with
                | Throw e =>
                    (Ok tt, {| res := caught_answer env e;
                               calls := [generate_call env text false] |})
                | Ok r =>
                    match Js.trim "summary" r with
                    | Throw e =>
                        (Ok tt, {| res := caught_answer env e;
                                   calls := [generate_call env text false] |})
                    | Ok s =>
                        (Ok tt, {| res := success_answer s text;
                                   calls := [generate_call env text false] |})
                    end
                end
            end
        end
    end.
Proof.
  unfold summarize, try_catch, bind, lift, await, caught_answer, is_refused, generate_call.
  destruct (Js.destructure "req.body" body "text") as [text|e]; cbn [init res calls app].
  2:{ destruct (code e) as [c|]; [destruct (String.eqb c "ECONNREFUSED")|]; reflexivity. }
  destruct (text_missing text) as [[|]|e]; cbn [init res calls app].
  - reflexivity.
  - destruct (upstream _) as [data|e].
    + destruct (Js.get data "response") as [r|e].
      * destruct (Js.trim "summary" r) as [s|e]; [reflexivity|].
        destruct (code e) as [c|]; [destruct (String.eqb c "ECONNREFUSED")|]; reflexivity.
      * destruct (code e) as [c|]; [destruct (String.eqb c "ECONNREFUSED")|]; reflexivity.
    + destruct (code e) as [c|]; [destruct (String.eqb c "ECONNREFUSED")|]; reflexivity.
  - destruct (code e) as [c|]; [destruct (String.eqb c "ECONNREFUSED")|]; reflexivity.
Qed.

Lemma caught_answer_shape (e : js_error) :
  exists status payload,
    caught_answer env e = [Status status; Json payload]
    /\ (status = 500 \/ status = 503)
    /\ http_status (caught_answer env e) = Some status.
Proof.
  unfold caught_answer. destruct (is_refused e).
  - exists 503. eexists. repeat split. now right.
  - exists 500. eexists. repeat split. now left.
Qed.

(** A TypeError has no [code]: it is answered with HTTP 500. *)
Lemma caught_TypeError (msg : string) :
  caught_answer env (TypeError msg) = failed_answer msg.
Proof. reflexivity. Qed.

Lemma trim_throws_TypeError (name : string) (v : value number) (e : js_error) :
  Js.trim name v = Throw e -> code e = None.
Proof. destruct v; cbn; intros H; inversion H; reflexivity. Qed.

Lemma get_throws_TypeError (v : value number) (k : string) (e : js_error) :
  Js.get v k = Throw e -> code e = None.
Proof. destruct v; cbn; intros H; inversion H; reflexivity. Qed.

Lemma text_missing_throws (text : value number) :
  Js.truthy text = true -> is_string text = false ->
  text_missing text = Throw (TypeError "text.trim is not a function").
Proof.
  intros Ht Hs. unfold text_missing. rewrite Ht. cbn [negb].
  destruct text; try discriminate; reflexivity.
Qed.

(** A text that passed the validation is a string: the template literal
    of the prompt converts it without throwing. *)
Lemma text_present_is_string (text : value number) :
  text_missing text = Ok false ->
  exists t, text = VStr t /\ Js.to_string text = Ok t.
Proof.
  unfold text_missing. destruct (negb (Js.truthy text)); [discriminate|].
  destruct text; cbn; try discriminate. intros _. eexists. split; reflexivity.
Qed.

(** A request without a body (no JSON content type): the destructuring of
    [req.body] throws, and the catch block answers 500 with its message. *)
Lemma summarize_without_body (upstream : upstream_call -> result (value number)) :
  summarize env upstream VUndefined init
  = (Ok tt,
     {| res := failed_answer
                 "Cannot destructure property 'text' of 'req.body' as it is undefined.";
        calls := [] |}).
Proof. reflexivity. Qed.

(** X1. POST /api/summarize answers every request exactly once and never
    throws: one call of res.json, preceded by res.status except on
    success, with HTTP status 200, 400, 500 or 503. *)
Theorem summarize_answers_once
  (upstream : upstream_call -> result (value number)) (body : value number) :
  fst (summarize env upstream body init) = Ok tt
  /\ exists status payload,
       (res (snd (summarize env upstream body init)) = [Json payload] /\ status = 200
        \/ res (snd (summarize env upstream body init)) = [Status status; Json payload]
           /\ (status = 400 \/ status = 500 \/ status = 503))
       /\ http_status (res (snd (summarize env upstream body init))) = Some status.
Proof.
  rewrite summarize_paths.
  assert (Hcaught : forall e cs,
             fst (Ok tt, {| res := caught_answer env e; calls := cs |}) = Ok tt
             /\ exists status payload,
                  (res (snd (Ok tt, {| res := caught_answer env e; calls := cs |}))
                   = [Json payload] /\ status = 200
                   \/ res (snd (Ok tt, {| res := caught_answer env e; calls := cs |}))
                      = [Status status; Json payload]
                      /\ (status = 400 \/ status = 500 \/ status = 503))
                  /\ http_status
                       (res (snd (Ok tt, {| res := caught_answer env e; calls := cs |})))
                     = Some status).
  { intros e cs. split; [reflexivity|]. cbn [snd res].
    destruct (caught_answer_shape e) as [status [payload [E [Hs Hh]]]].
    exists status, payload. split; [right; split; [exact E | tauto] | exact Hh]. }
  destruct (Js.destructure "req.body" body "text") as [text|e]; [|apply Hcaught].
  destruct (text_missing text) as [[|]|e]; [| |apply Hcaught].
  - split; [reflexivity|]. exists 400. eexists. split; [right; split; [reflexivity | tauto] | reflexivity].
  - destruct (upstream _) as [data|e]; [|apply Hcaught].
    destruct (Js.get data "response") as [r|e]; [|apply Hcaught].
    destruct (Js.trim "summary" r) as [s|e]; [|apply Hcaught].
    split; [reflexivity|]. exists 200. eexists. split; [left; split; reflexivity | reflexivity].
Qed.

(** X2. A [text] that is truthy but not a string (a number, [true], an
    array, an object) makes [text.trim()] throw: POST /api/summarize
    answers HTTP 500 with the details [text.trim is not a function], and
    sends nothing upstream. *)
Theorem summarize_non_string_text
  (upstream : upstream_call -> result (value number)) (body text : value number) :
  Js.get body "text" = Ok text ->
  Js.truthy text = true ->
  is_string text = false ->
  summarize env upstream body init
    = (Ok tt, {| res := failed_answer "text.trim is not a function"; calls := [] |})
  /\ http_status (failed_answer "text.trim is not a function") = Some 500.
Proof.
  intros Hget Ht Hs. split; [|reflexivity].
  rewrite summarize_paths, (destructure_get "req.body" _ _ _ Hget), (text_missing_throws text Ht Hs). reflexivity.
Qed.

(** X3. When upstream answers but its answer has no string [response]
    (the field is missing, or the answer is not an object), POST
    /api/summarize answers HTTP 500 after that one request; for a missing
    field the details are the TypeError of reading [trim] of undefined. *)
Theorem summarize_answer_without_response
  (upstream : upstream_call -> result (value number)) (body data : value number)
  (t : string) :
  Js.get body "text" = Ok (VStr t) ->
  Str.trim t <> "" ->
  upstream (generate_call env (VStr t) false) = Ok data ->
  (forall s, Js.get data "response" <> Ok (VStr s)) ->
  exists details,
    summarize env upstream body init
      = (Ok tt, {| res := failed_answer details;
                   calls := [generate_call env (VStr t) false] |})
    /\ (Js.get data "response" = Ok VUndefined ->
        details = "Cannot read properties of undefined (reading 'trim')").
Proof.
  intros Hget Htext Hup Hresp.
  rewrite summarize_paths, (destructure_get "req.body" _ _ _ Hget), (text_missing_present t Htext), Hup.
  destruct (Js.get data "response") as [r|e] eqn:Hr.
  - destruct (Js.trim "summary" r) as [s|e] eqn:Htrim.
    + destruct r; try discriminate. now elim (Hresp s0).
    + exists (message e). split.
      * unfold caught_answer, is_refused.
        now rewrite (trim_throws_TypeError "summary" r e Htrim).
      * intros Hu. injection Hu as ->. cbn in Htrim. now injection Htrim as <-.
  - exists (message e). split; [|discriminate].
    unfold caught_answer, is_refused. now rewrite (get_throws_TypeError data "response" e Hr).
Qed.

End SyncTotal.

(** ** The status passthrough on unusual answers, and the configuration *)

Section StatusEdges.
Context {R : Runtime}.
Variable env : string -> option string.

Lemma map_name_null (items : list (value number)) :
  In VNull items -> exists e, map_name items = Throw e.
Proof.
  induction items as [|m items IH]; intros Hin; [contradiction|].
  destruct Hin as [->|Hin].
  - cbn. eexists. reflexivity.
  - cbn [map_name]. destruct (Js.get m "name") as [name|e]; [|eexists; reflexivity].
    destruct (IH Hin) as [e ->]. eexists. reflexivity.
Qed.

Lemma ollama_status_listed
  (upstream : upstream_call -> result (value number)) (data : value number)
  (items : list (value number)) (names : list string) :
  upstream (AxiosGet (OLLAMA_URL env ++ "/api/tags")) = Ok data ->
  Js.get data "models" = Ok (VArr items) ->
  model_names items = Some names ->
  res (snd (ollama_status env upstream init))
  = [Json (connected_payload env (map VStr names)
             (existsb (fun n => Str.includes n (MODEL_NAME env)) names))].
Proof.
  intros Hup Hm Hn.
  unfold ollama_status, try_catch, bind, lift, await, res_json, on_res.
  cbn [init res calls app]. rewrite Hup, Hm. cbn [Js.truthy array_of].
  rewrite (some_has_model_names env items names Hn), (map_name_names items names Hn).
  reflexivity.
Qed.

Lemma ollama_status_failed
  (upstream : upstream_call -> result (value number)) (e : js_error) :
  upstream (AxiosGet (OLLAMA_URL env ++ "/api/tags")) = Throw e ->
  res (snd (ollama_status env upstream init))
  = [Json (disconnected_payload env (message e))].
Proof.
  intros Hup.
  unfold ollama_status, try_catch, bind, lift, await, res_json, on_res.
  cbn [init res calls app]. now rewrite Hup.
Qed.

(** X4. When the upstream answer has no [models] field (or a falsy one),
    the status handler reports [connected: true] with an empty model list
    and [hasRequiredModel: false]. *)
Theorem ollama_status_without_models
  (upstream : upstream_call -> result (value number)) (data m : value number) :
  upstream (AxiosGet (OLLAMA_URL env ++ "/api/tags")) = Ok data ->
  Js.get data "models" = Ok m ->
  Js.truthy m = false ->
  res (snd (ollama_status env upstream init)) = [Json (connected_payload env [] false)].
Proof.
  intros Hup Hm Hf.
  unfold ollama_status, try_catch, bind, lift, await, res_json, on_res.
  cbn [init res calls app]. rewrite Hup, Hm, Hf. reflexivity.
Qed.

(** X5. A model list with a [null] entry is reported as
    [connected: false], although upstream answered: reading the name of
    the entry throws, in [some] or, when an earlier entry already matched,
    in [map]. *)
Theorem ollama_status_null_entry
  (upstream : upstream_call -> result (value number)) (data : value number)
  (items : list (value number)) :
  upstream (AxiosGet (OLLAMA_URL env ++ "/api/tags")) = Ok data ->
  Js.get data "models" = Ok (VArr items) ->
  In VNull items ->
  exists msg,
    res (snd (ollama_status env upstream init)) = [Json (disconnected_payload env msg)]
    /\ http_status (res (snd (ollama_status env upstream init))) = Some 200.
Proof.
  intros Hup Hm Hin.
  destruct (map_name_null items Hin) as [e He].
  unfold ollama_status, try_catch, bind, lift, await, res_json, on_res.
  cbn [init res calls app]. rewrite Hup, Hm. cbn [Js.truthy array_of].
  destruct (some_has_model env items) as [has|e'].
  - rewrite He. eexists. split; reflexivity.
  - eexists. split; reflexivity.
Qed.

End StatusEdges.

(** X6. The upstream URL and the model name are never empty: an unset or
    empty environment variable falls back to the default, any other value
    is taken as it is. *)
Theorem configuration_defaults (env : string -> option string) :
  OLLAMA_URL env <> "" /\ MODEL_NAME env <> ""
  /\ (forall s, env "OLLAMA_URL" = Some s -> s <> "" -> OLLAMA_URL env = s)
  /\ (forall s, env "MODEL_NAME" = Some s -> s <> "" -> MODEL_NAME env = s)
  /\ (env "OLLAMA_URL" = None \/ env "OLLAMA_URL" = Some "" ->
      OLLAMA_URL env = "http://localhost:11434")
  /\ (env "MODEL_NAME" = None \/ env "MODEL_NAME" = Some "" ->
      MODEL_NAME env = "mistral").
Proof.
  unfold OLLAMA_URL, MODEL_NAME, or_default.
  repeat split.
  - destruct (env "OLLAMA_URL") as [[|c s]|]; discriminate.
  - destruct (env "MODEL_NAME") as [[|c s]|]; discriminate.
  - intros s -> Hs. destruct s; [now elim Hs | reflexivity].
  - intros s -> Hs. destruct s; [now elim Hs | reflexivity].
  - intros [-> | ->]; reflexivity.
  - intros [-> | ->]; reflexivity.
Qed.

(** ** The streaming handler on every input *)

Section StreamTotal.
Context {R : Runtime}.
Variable env : string -> option string.

(** POST /api/summarize-stream up to the registration of the listeners,
    path by path. *)
Lemma summarize_stream_open_paths
  (upstream : upstream_call -> result unit) (body : value number) :
  summarize_stream_open env upstream body init
  = match Js.destructure "req.body" body "text" with
    | Throw e => (Ok None, {| res := [Write (failure_event e); End]; calls := [] |})
    | Ok text =>
        match text_missing text with
        | Throw e => (Ok None, {| res := [Write (failure_event e); End]; calls := [] |})
        | Ok true => (Ok None, {| res := [Status 400; required_error]; calls := [] |})
        | Ok false =>
            match upstream (generate_call env text true) with
            | Throw e =>
                (Ok None,
                 {| res := opened_log ++ [Write (failure_event e); End];
                    calls := [generate_call env text true] |})
            | Ok _ =>
                (Ok (Some text),
                 {| res := opened_log; calls := [generate_call env text true] |})
            end
        end
    end.
Proof.
  unfold summarize_stream_open, try_catch, bind, lift, await, res_write, res_end,
    on_res, ret, generate_call.
  destruct (Js.destructure "req.body" body "text") as [text|e]; cbn [init res calls app]; [|reflexivity].
  destruct (text_missing text) as [[|]|e]; cbn [init res calls app]; try reflexivity.
  destruct (upstream _) as [[]|e]; reflexivity.
Qed.

Lemma summarize_stream_paths
  (upstream : upstream_call -> result unit) (body : value number) (events : list event) :
  summarize_stream env upstream body events
  = match Js.destructure "req.body" body "text" with
    | Throw e => (idle [Write (failure_event e); End], [])
    | Ok text =>
        match text_missing text with
        | Throw e => (idle [Write (failure_event e); End], [])
        | Ok true => (idle [Status 400; required_error], [])
        | Ok false =>
            match upstream (generate_call env text true) with
            | Throw e =>
                (idle (opened_log ++ [Write (failure_event e); End]),
                 [generate_call env text true])
            | Ok _ =>
                (run_relay text (idle opened_log) events, [generate_call env text true])
            end
        end
    end.
Proof.
  unfold summarize_stream. rewrite summarize_stream_open_paths.
  destruct (Js.destructure "req.body" body "text") as [text|e]; [|reflexivity].
  destruct (text_missing text) as [[|]|e]; try reflexivity.
  destruct (upstream _) as [[]|e]; reflexivity.
Qed.

(** X7. No handler retries: whatever the request and whatever upstream
    does, each summarize handler sends at most one upstream request, and
    the status handler exactly one. *)
Theorem at_most_one_upstream_request
  (upstream : upstream_call -> result (value number))
  (upstream_s : upstream_call -> result unit)
  (body : value number) (events : list event) :
  (length (calls (snd (summarize env upstream body init))) <= 1)%nat
  /\ (length (snd (summarize_stream env upstream_s body events)) <= 1)%nat
  /\ length (calls (snd (ollama_status env upstream init))) = 1%nat.
Proof.
  split; [|split].
  - rewrite summarize_paths.
    destruct (Js.destructure "req.body" body "text") as [text|e]; [|cbn; lia].
    destruct (text_missing text) as [[|]|e]; try (cbn; lia).
    destruct (upstream _) as [data|e]; [|cbn; lia].
    destruct (Js.get data "response") as [r|e]; [|cbn; lia].
    destruct (Js.trim "summary" r); cbn; lia.
  - rewrite summarize_stream_paths.
    destruct (Js.destructure "req.body" body "text") as [text|e]; [|cbn; lia].
    destruct (text_missing text) as [[|]|e]; try (cbn; lia).
    destruct (upstream_s _) as [[]|e]; cbn; lia.
  - destruct (ollama_status_total env upstream) as [p [-> _]]. reflexivity.
Qed.

(** X8. When the streaming request to upstream fails, the handler has
    already written the event-stream headers and the [start] frame: it
    writes one [error] frame with the message of the failure and closes
    the stream, under HTTP 200; the message names Ollama when the
    connection was refused. No listener is registered, so later events
    change nothing. *)
Theorem summarize_stream_upstream_failure
  (upstream : upstream_call -> result unit) (body : value number) (t : string)
  (e : js_error) (events : list event) :
  Js.get body "text" = Ok (VStr t) ->
  Str.trim t <> "" ->
  upstream (generate_call env (VStr t) true) = Throw e ->
  summarize_stream env upstream body events
    = (idle (opened_log ++ [Write (failure_event e); End]),
       [generate_call env (VStr t) true])
  /\ map describe (out (fst (summarize_stream env upstream body events)))
     = ["event-stream head"; "start"; "error"; "end"]
  /\ one_terminal_then_closed (opened_log ++ [Write (failure_event e); End]) = true
  /\ http_status (opened_log ++ [Write (failure_event e); End]) = Some 200
  /\ field "details" (failure_event e) = VStr (message e)
  /\ (code e = Some "ECONNREFUSED" ->
      field "error" (failure_event e)
      = VStr "Cannot connect to Ollama. Please ensure Ollama is running locally.")
  /\ (code e <> Some "ECONNREFUSED" ->
      field "error" (failure_event e) = VStr "Failed to generate summary").
Proof.
  intros Hget Htext Hup.
  rewrite summarize_stream_paths, (destructure_get "req.body" _ _ _ Hget),
    (text_missing_present t Htext), Hup.
  repeat split.
  - intros Hc. unfold failure_event. rewrite Hc. reflexivity.
  - intros Hc. unfold failure_event.
    destruct (code e) as [c|]; [|reflexivity].
    destruct (String.eqb_spec c "ECONNREFUSED") as [->|Hne]; [now elim Hc | reflexivity].
Qed.

(** X9. A [text] that is truthy but not a string makes the streaming
    handler throw before it writes the event-stream headers: the catch
    block writes an [error] frame all the same, with the details
    [text.trim is not a function], and closes the response; the status is
    the default 200, no event-stream header was set, and nothing is sent
    upstream. *)
Theorem summarize_stream_non_string_text
  (upstream : upstream_call -> result unit) (body text : value number)
  (events : list event) :
  Js.get body "text" = Ok text ->
  Js.truthy text = true ->
  is_string text = false ->
  summarize_stream env upstream body events
    = (idle [Write (failure_event (TypeError "text.trim is not a function")); End], [])
  /\ existsb is_sse_head
       [Write (failure_event (TypeError "text.trim is not a function")); End] = false
  /\ http_status [Write (failure_event (TypeError "text.trim is not a function")); End]
     = Some 200
  /\ field "details" (failure_event (TypeError "text.trim is not a function"))
     = VStr "text.trim is not a function".
Proof.
  intros Hget Ht Hs.
  rewrite summarize_stream_paths, (destructure_get "req.body" _ _ _ Hget), (text_missing_throws text Ht Hs).
  repeat split.
Qed.

End StreamTotal.

(** ** The relay, from the first frame to the closing *)

Section RelayRuns.
Context {R : Runtime}.
Variable env : string -> option string.

Lemma cat_fragments (records : list (string * bool)) :
  cat (fragments records) = cat (map fst records).
Proof.
  unfold fragments.
  induction records as [|[f d] records IH]; [reflexivity|].
  cbn [map fst filter cat fold_right].
  destruct (Str.is_empty f) eqn:Hf; cbn [negb cat fold_right].
  - apply is_empty_true in Hf. subst f. exact IH.
  - fold (cat (map fst records)). rewrite <- IH. reflexivity.
Qed.

Lemma fragments_app (r1 r2 : list (string * bool)) :
  fragments (r1 ++ r2) = (fragments r1 ++ fragments r2)%list.
Proof. unfold fragments. now rewrite map_app, filter_app. Qed.

Lemma chunk_seq_app (l1 l2 : list string) :
  forall acc,
    chunk_seq acc (l1 ++ l2) = (chunk_seq acc l1 ++ chunk_seq (acc ++ cat l1) l2)%list.
Proof.
  induction l1 as [|f l1 IH]; intros acc.
  - cbn. now rewrite append_nil_r.
  - cbn [app chunk_seq cat fold_right]. fold (cat l1).
    now rewrite IH, append_assoc.
Qed.

(** Records without the completion flag are relayed as [chunk] frames
    only. *)
Lemma relayed_without_done (text : value number) (records : list (string * bool)) :
  forall acc,
    forallb (fun r => negb (snd r)) records = true ->
    relayed text acc records = chunk_seq acc (fragments records).
Proof.
  induction records as [|[f d] records IH]; intros acc H; [reflexivity|].
  cbn [forallb snd] in H. apply andb_true_iff in H. destruct H as [Hd H].
  destruct d; [discriminate|].
  cbn [relayed]. unfold fragments. cbn [map fst filter].
  destruct (Str.is_empty f) eqn:Hf; cbn [negb app].
  - apply is_empty_true in Hf. subst f. rewrite append_nil_r. now apply IH.
  - cbn [chunk_seq]. f_equal. now apply IH.
Qed.

Lemma chunk_seq_plain (frags : list string) :
  forall acc, forallb is_plain (chunk_seq acc frags) = true.
Proof.
  induction frags as [|f frags IH]; intros acc; [reflexivity|].
  cbn [chunk_seq forallb]. now rewrite IH.
Qed.

Lemma plain_filters (log : list res_op) :
  forallb is_plain log = true ->
  filter is_terminal log = [] /\ filter is_end log = [].
Proof.
  induction log as [|op log IH]; intros H; [split; reflexivity|].
  cbn [forallb] in H. apply andb_true_iff in H. destruct H as [Hop H].
  unfold is_plain in Hop. apply andb_true_iff in Hop. destruct Hop as [Ht He].
  apply negb_true_iff in Ht, He. cbn [filter]. rewrite Ht, He. now apply IH.
Qed.

(** Plain calls, one terminal frame, the closing: the stream invariant. *)
Lemma closes_after_plain (pre : list res_op) (e : value number) :
  forallb is_plain pre = true ->
  is_terminal (Write e) = true ->
  one_terminal_then_closed (pre ++ [Write e; End]) = true.
Proof.
  intros Hpre Ht. destruct (plain_filters pre Hpre) as [F1 F2].
  unfold one_terminal_then_closed.
  rewrite !filter_app, F1, F2. cbn [filter app]. rewrite Ht.
  assert (is_end (Write e) = false) as -> by reflexivity.
  assert (is_terminal End = false) as -> by reflexivity.
  cbn [is_end length Nat.eqb andb].
  rewrite rev_app_distr. reflexivity.
Qed.

Lemma chunk_seq_chunks (frags : list string) :
  forall acc, filter (writes "chunk") (chunk_seq acc frags) = chunk_seq acc frags.
Proof.
  induction frags as [|f frags IH]; intros acc; [reflexivity|].
  cbn [chunk_seq filter].
  assert (writes "chunk" (Write (chunk_event (VStr f) (acc ++ f))) = true) as ->
    by reflexivity.
  now rewrite IH.
Qed.

Lemma chunk_seq_no_complete (frags : list string) :
  forall acc, filter (writes "complete") (chunk_seq acc frags) = [].
Proof.
  induction frags as [|f frags IH]; intros acc; [reflexivity|].
  cbn [chunk_seq filter].
  assert (writes "complete" (Write (chunk_event (VStr f) (acc ++ f))) = false) as ->
    by reflexivity.
  apply IH.
Qed.

Lemma chunk_seq_no_error (frags : list string) :
  forall acc, filter (writes "error") (chunk_seq acc frags) = [].
Proof.
  induction frags as [|f frags IH]; intros acc; [reflexivity|].
  cbn [chunk_seq filter].
  assert (writes "error" (Write (chunk_event (VStr f) (acc ++ f))) = false) as ->
    by reflexivity.
  apply IH.
Qed.

Lemma chunk_seq_pairs (frags : list string) :
  forall acc,
    map (fun op => (frame_field "content" op, frame_field "fullContent" op))
      (chunk_seq acc frags)
    = chunk_pairs acc frags.
Proof.
  induction frags as [|f frags IH]; intros acc; [reflexivity|].
  cbn [chunk_seq chunk_pairs map]. now rewrite IH.
Qed.

Lemma chunk_seq_describe (frags : list string) :
  forall acc, map describe (chunk_seq acc frags) = repeat "chunk" (length frags).
Proof.
  induction frags as [|f frags IH]; intros acc; [reflexivity|].
  cbn [chunk_seq map length repeat]. now rewrite IH.
Qed.

Lemma headersSent_opened : headersSent (opened_log (R := R)) = true.
Proof. reflexivity. Qed.

(** X10. A stream of well-formed records whose last record, and no
    other, carries the completion flag, followed by the end of the
    upstream stream: the handler writes the event-stream head and the
    [start] frame, one [chunk] frame per non-empty fragment with that
    fragment and the concatenation so far, one [complete] frame whose
    [content] is the trimmed concatenation of all fragments and whose
    [originalText] is the text, and closes the stream; exactly one
    terminal frame is written and the closing is the last call. *)
Theorem relay_completes_on_done
  (upstream : upstream_call -> result unit) (body : value number) (t : string)
  (chunks : list string) (before : list (string * bool)) (f : string) :
  Js.get body "text" = Ok (VStr t) ->
  Str.trim t <> "" ->
  upstream (generate_call env (VStr t) true) = Ok tt ->
  forallb well_formed_chunk chunks = true ->
  flat_map chunk_records chunks = (before ++ [(f, true)])%list ->
  forallb (fun r => negb (snd r)) before = true ->
  out (fst (summarize_stream env upstream body
              (map UpstreamData chunks ++ [UpstreamEnd])%list))
  = (opened_log
     ++ chunk_seq "" (fragments (before ++ [(f, true)]))
     ++ [Write (complete_event (cat (map fst (before ++ [(f, true)]))) (VStr t)); End])%list
  /\ one_terminal_then_closed
       (out (fst (summarize_stream env upstream body
                    (map UpstreamData chunks ++ [UpstreamEnd])%list))) = true
  /\ map describe
       (out (fst (summarize_stream env upstream body
                    (map UpstreamData chunks ++ [UpstreamEnd])%list)))
     = (["event-stream head"; "start"]
        ++ repeat "chunk" (length (fragments (before ++ [(f, true)])))
        ++ ["complete"; "end"])%list
  /\ http_status
       (out (fst (summarize_stream env upstream body
                    (map UpstreamData chunks ++ [UpstreamEnd])%list))) = Some 200
  /\ map (fun op => (frame_field "content" op, frame_field "fullContent" op))
       (chunk_writes
          (out (fst (summarize_stream env upstream body
                       (map UpstreamData chunks ++ [UpstreamEnd])%list))))
     = chunk_pairs "" (fragments (before ++ [(f, true)]))
  /\ map (fun op => (frame_field "content" op, frame_field "originalText" op))
       (filter (writes "complete")
          (out (fst (summarize_stream env upstream body
                       (map UpstreamData chunks ++ [UpstreamEnd])%list))))
     = [(VStr (Str.trim (cat (map fst (before ++ [(f, true)])))), VStr t)].
Proof.
  intros Hget Htext Hup Hwf Hrec Hbefore.
  assert (E : out (fst (summarize_stream env upstream body
                          (map UpstreamData chunks ++ [UpstreamEnd])%list))
              = (opened_log
                 ++ chunk_seq "" (fragments (before ++ [(f, true)]))
                 ++ [Write (complete_event (cat (map fst (before ++ [(f, true)]))) (VStr t));
                     End])%list).
  { rewrite (stream_relaying env upstream body (VStr t) _ Hget
               (text_missing_present t Htext) Hup).
    cbn [fst].
    rewrite (upstream_end_is_ignored (VStr t)
               {| out := [WriteHead 200 sse_headers; Write start_event];
                  fullResponse := "";
                  destroyed := false |} (map UpstreamData chunks) eq_refl).
    rewrite (run_relay_records (VStr t) chunks _ Hwf). cbn [out fullResponse].
    rewrite Hrec, relayed_app, (relayed_without_done (VStr t) before "" Hbefore).
    rewrite fragments_app, chunk_seq_app, map_app, cat_app, cat_fragments.
    unfold opened_log. cbn [app]. do 2 f_equal.
    rewrite <- app_assoc. f_equal.
    cbn [relayed fragments map fst filter cat fold_right].
    rewrite !append_nil_r.
    destruct (Str.is_empty f) eqn:Hf; cbn [negb chunk_seq app].
    - apply is_empty_true in Hf. subst f. now rewrite !append_nil_r.
    - reflexivity. }
  rewrite E.
  split; [reflexivity|]. split; [|split; [|split; [|split]]].
  - rewrite app_assoc. apply closes_after_plain; [|reflexivity].
    rewrite forallb_app, chunk_seq_plain. reflexivity.
  - rewrite !map_app, chunk_seq_describe. reflexivity.
  - reflexivity.
  - unfold chunk_writes. rewrite !filter_app, chunk_seq_chunks.
    cbn [opened_log filter writes event_type field Js.lookup String.eqb Ascii.eqb
         Bool.eqb start_event complete_event app].
    rewrite app_nil_r. apply chunk_seq_pairs.
  - rewrite !filter_app.
    rewrite chunk_seq_no_complete. reflexivity.
Qed.

(** X11. A stream of well-formed records without completion flag that
    fails: after the [chunk] frames the handler writes one [error] frame,
    [Stream processing error], and closes the stream; exactly one terminal
    frame is written and the closing is the last call. *)
Theorem relay_upstream_error
  (upstream : upstream_call -> result unit) (body : value number) (t : string)
  (chunks : list string) :
  Js.get body "text" = Ok (VStr t) ->
  Str.trim t <> "" ->
  upstream (generate_call env (VStr t) true) = Ok tt ->
  forallb well_formed_chunk chunks = true ->
  forallb (fun r => negb (snd r)) (flat_map chunk_records chunks) = true ->
  out (fst (summarize_stream env upstream body
              (map UpstreamData chunks ++ [UpstreamError])%list))
  = (opened_log
     ++ chunk_seq "" (fragments (flat_map chunk_records chunks))
     ++ [Write stream_error_event; End])%list
  /\ one_terminal_then_closed
       (out (fst (summarize_stream env upstream body
                    (map UpstreamData chunks ++ [UpstreamError])%list))) = true
  /\ map describe
       (out (fst (summarize_stream env upstream body
                    (map UpstreamData chunks ++ [UpstreamError])%list)))
     = (["event-stream head"; "start"]
        ++ repeat "chunk" (length (fragments (flat_map chunk_records chunks)))
        ++ ["error"; "end"])%list
  /\ map (frame_field "error")
       (filter (writes "error")
          (out (fst (summarize_stream env upstream body
                       (map UpstreamData chunks ++ [UpstreamError])%list))))
     = [VStr "Stream processing error"].
Proof.
  intros Hget Htext Hup Hwf Hnone.
  assert (E : out (fst (summarize_stream env upstream body
                          (map UpstreamData chunks ++ [UpstreamError])%list))
              = (opened_log
                 ++ chunk_seq "" (fragments (flat_map chunk_records chunks))
                 ++ [Write stream_error_event; End])%list).
  { rewrite (stream_relaying env upstream body (VStr t) _ Hget
               (text_missing_present t Htext) Hup).
    cbn [fst]. unfold run_relay. rewrite fold_left_app.
    change (fold_left (dispatch (VStr t)) (map UpstreamData chunks) ?st)
      with (run_relay (VStr t) st (map UpstreamData chunks)).
    rewrite (run_relay_records (VStr t) chunks _ Hwf).
    cbn [fold_left dispatch on_error emit out fullResponse].
    rewrite (relayed_without_done (VStr t) _ "" Hnone).
    unfold opened_log. now rewrite <- !app_assoc. }
  split; [exact E|]. rewrite E. split; [|split].
  - rewrite app_assoc. apply closes_after_plain; [|reflexivity].
    rewrite forallb_app, chunk_seq_plain. reflexivity.
  - rewrite !map_app, chunk_seq_describe. reflexivity.
  - rewrite !filter_app, chunk_seq_no_error. reflexivity.
Qed.

(** X12. A record after the completion record is still relayed: when a
    well-formed stream has a record with a non-empty fragment after a
    record with the completion flag, a [chunk] frame is written after the
    call that closed the stream. *)
Theorem relay_writes_after_done
  (upstream : upstream_call -> result unit) (body : value number) (t : string)
  (chunks : list string) (before after : list (string * bool)) (f : string) :
  Js.get body "text" = Ok (VStr t) ->
  Str.trim t <> "" ->
  upstream (generate_call env (VStr t) true) = Ok tt ->
  forallb well_formed_chunk chunks = true ->
  flat_map chunk_records chunks = (before ++ (f, true) :: after)%list ->
  fragments after <> [] ->
  exists pre post op,
    out (fst (summarize_stream env upstream body (map UpstreamData chunks)))
    = (pre ++ End :: post)%list
    /\ In op post /\ writes "chunk" op = true.
Proof.
  intros Hget Htext Hup Hwf Hrec Hafter.
  rewrite (stream_relaying env upstream body (VStr t) _ Hget
             (text_missing_present t Htext) Hup).
  cbn [fst]. rewrite (run_relay_records (VStr t) chunks _ Hwf). cbn [out fullResponse].
  rewrite Hrec, relayed_app. cbn [relayed].
  set (acc := ("" ++ cat (map fst before)) ++ f).
  assert (Hop : exists op, In op (relayed (VStr t) acc after) /\ writes "chunk" op = true).
  { pose proof (chunk_writes_relayed (VStr t) after acc) as Hcw.
    destruct (chunk_seq acc (fragments after)) as [|op rest] eqn:Hseq.
    - destruct (fragments after); [now elim Hafter | discriminate].
    - exists op. apply filter_In. unfold chunk_writes in Hcw. rewrite Hcw. now left. }
  destruct Hop as [op [Hin Hw]].
  eexists _, (relayed (VStr t) acc after), op.
  split; [|split; [exact Hin | exact Hw]].
  rewrite !app_assoc. cbn [app].
  change (?l ++ [?c; End] ++ ?r)%list with (l ++ c :: End :: r)%list.
  instantiate (1 := ((([WriteHead 200 sse_headers; Write start_event]
                       ++ relayed (VStr t) "" before)
                      ++ (if Str.is_empty f then []
                          else [Write (chunk_event (VStr f) acc)]))
                     ++ [Write (complete_event acc (VStr t))])%list).
  rewrite <- !app_assoc. reflexivity.
Qed.

End RelayRuns.

(** ** The relay on arbitrary events *)

Section RelayInvariants.
Context {R : Runtime}.
Variable text : value number.












Lemma same_output_on_line (a b : relay) (line : string) :
  same_output a b -> same_output (on_line text a line) (on_line text b line).
Proof.
  intros [Ho Hf]. on_line_paths; split; cbn; rewrite ?Ho, ?Hf; reflexivity.
Qed.

Lemma same_output_dispatch (a b : relay) (ev : event) :
  same_output a b -> same_output (dispatch text a ev) (dispatch text b ev).
Proof.
  intros H. destruct ev as [chunk| | |]; cbn [dispatch].
  - unfold on_data. generalize (Str.split_lines chunk) as lines. intros lines.
    revert a b H. induction lines as [|l lines IH]; intros a b H; [exact H|].
    cbn [fold_left]. apply IH. now apply same_output_on_line.
  - destruct H as [Ho Hf]. split; cbn; rewrite ?Ho, ?Hf; reflexivity.
  - destruct H as [Ho Hf]. unfold on_end. rewrite Ho.
    destruct (negb (headersSent (out b))); split; cbn; rewrite ?Ho, ?Hf; reflexivity.
  - destruct close_on_disconnect; [|exact H].
    destruct H as [Ho Hf]. split; cbn; assumption.
Qed.

(** X14. The listener of the client disconnect only destroys the
    upstream stream: it does not end the response, and the other listeners
    do not look at it. The calls on the response are those of the same
    events without the disconnects. *)
Theorem client_close_keeps_relaying (st : relay) (events : list event) :
  same_output (run_relay text st events)
    (run_relay text st (filter (fun ev => negb (is_close ev)) events)).
Proof.
  assert (H : forall a b, same_output a b ->
              same_output (run_relay text a events)
                (run_relay text b (filter (fun ev => negb (is_close ev)) events))).
  { induction events as [|ev evs IH]; intros a b Hab; [exact Hab|].
    change (run_relay text a (ev :: evs)) with (run_relay text (dispatch text a ev) evs).
    destruct ev as [chunk| | |]; cbn [filter is_close negb].
    - change (run_relay text b (UpstreamData chunk :: ?l))
        with (run_relay text (dispatch text b (UpstreamData chunk)) l).
      apply IH. now apply same_output_dispatch.
    - change (run_relay text b (UpstreamError :: ?l))
        with (run_relay text (dispatch text b UpstreamError) l).
      apply IH. now apply same_output_dispatch.
    - change (run_relay text b (UpstreamEnd :: ?l))
        with (run_relay text (dispatch text b UpstreamEnd) l).
      apply IH. now apply same_output_dispatch.
    - apply IH. cbn [dispatch]. destruct close_on_disconnect; [|exact Hab].
      destruct Hab as [Ho Hf]. split; cbn; assumption. }
  apply H. split; reflexivity.
Qed.

(** X15. A line that is not JSON is skipped and leaves no trace: a
    chunk is relayed as the chunk without its unparsable lines. *)
Theorem malformed_lines_are_skipped (st : relay) (chunk : string) :
  on_data text st chunk
  = fold_left (on_line text) (filter parses (Str.split_lines chunk)) st.
Proof.
  unfold on_data. generalize (Str.split_lines chunk) as lines. intros lines. revert st.
  induction lines as [|l lines IH]; intros st; [reflexivity|].
  cbn [fold_left filter]. unfold parses at 1.
  destruct (JSON_parse l) as [parsed|] eqn:Hp.
  - cbn [fold_left]. apply IH.
  - rewrite <- IH. f_equal. unfold on_line. rewrite Hp.
    destruct (Str.is_empty (Str.trim l)); reflexivity.
Qed.


End RelayInvariants.

Section StreamStatus.
Context {R : Runtime}.
Variable env : string -> option string.


End StreamStatus.

(** ** Trimming and splitting, as the handlers use them *)

Lemma trimStart_blank (s : string) : Str.trimStart s = "" <-> all_ws s = true.
Proof.
  induction s as [|c s IH]; cbn; [tauto|].
  destruct (Str.is_ws c); cbn; [exact IH|]. split; discriminate.
Qed.

Lemma trimStart_head (s : string) :
  match Str.trimStart s with
  | EmptyString => True
  | String c _ => Str.is_ws c = false
  end.
Proof.
  induction s as [|c s IH]; cbn; [exact I|].
  destruct (Str.is_ws c) eqn:Hc; [exact IH | exact Hc].
Qed.

Lemma trimEnd_head (c : ascii) (r : string) :
  Str.is_ws c = false -> Str.trimEnd (String c r) = String c (Str.trimEnd r).
Proof. intros H. cbn. now rewrite H. Qed.

Lemma trimEnd_idempotent (s : string) : Str.trimEnd (Str.trimEnd s) = Str.trimEnd s.
Proof.
  induction s as [|c s IH]; [reflexivity|].
  cbn [Str.trimEnd].
  destruct (Str.is_ws c && Str.is_empty (Str.trimEnd s)) eqn:H; [reflexivity|].
  cbn [Str.trimEnd]. now rewrite IH, H.
Qed.

Lemma trim_blank (s : string) : Str.trim s = "" <-> all_ws s = true.
Proof.
  unfold Str.trim. rewrite <- trimStart_blank.
  pose proof (trimStart_head s) as Hh.
  destruct (Str.trimStart s) as [|c r]; [tauto|].
  rewrite (trimEnd_head c r Hh). split; discriminate.
Qed.

Lemma trim_idempotent (s : string) : Str.trim (Str.trim s) = Str.trim s.
Proof.
  unfold Str.trim. pose proof (trimStart_head s) as Hh.
  destruct (Str.trimStart s) as [|c r]; [reflexivity|].
  rewrite (trimEnd_head c r Hh). cbn [Str.trimStart]. rewrite Hh.
  rewrite (trimEnd_head c _ Hh). now rewrite trimEnd_idempotent.
Qed.

Lemma split_lines_cons (s : string) : exists h t, Str.split_lines s = h :: t.
Proof.
  destruct s as [|c r]; cbn [Str.split_lines]; [do 2 eexists; reflexivity|].
  destruct (Ascii.eqb c Str.LF); [do 2 eexists; reflexivity|].
  destruct (Str.split_lines r); do 2 eexists; reflexivity.
Qed.

Lemma join_cons (h : string) (x : string) (t : list string) :
  Str.join (String Str.LF "") (h :: x :: t)
  = h ++ String Str.LF (Str.join (String Str.LF "") (x :: t)).
Proof. reflexivity. Qed.

Section ValidationProperties.
Context {R : Runtime}.
Variable env : string -> option string.

(** X17. The validation of both summarize handlers rejects a string
    exactly when it consists of white space only (the empty string
    included): [!text || text.trim().length === 0] holds for it iff every
    character is a space, a tab, a line break or another white space. *)
Theorem text_missing_iff_blank (t : string) :
  text_missing (VStr t) = Ok (all_ws t).
Proof.
  destruct (all_ws t) eqn:H.
  - apply text_missing_blank. now apply trim_blank.
  - apply text_missing_present. intros E. apply trim_blank in E. congruence.
Qed.

(** X18. The summary of a successful answer is trimmed: whenever POST
    /api/summarize answers with [success: true], trimming its [summary]
    again changes nothing. *)
Theorem summary_is_trimmed
  (upstream : upstream_call -> result (value number)) (body payload : value number) :
  res (snd (summarize env upstream body init)) = [Json payload] ->
  exists s text,
    payload = VObj [("success", VBool true); ("summary", VStr s); ("originalText", text)]
    /\ Str.trim s = s.
Proof.
  rewrite summarize_paths.
  assert (Hcaught : forall e, caught_answer env e <> [Json payload]).
  { intros e. unfold caught_answer. destruct (is_refused e); discriminate. }
  destruct (Js.destructure "req.body" body "text") as [text|e]; [|intros H; now elim (Hcaught e)].
  destruct (text_missing text) as [[|]|e];
    [discriminate | | intros H; now elim (Hcaught e)].
  destruct (upstream _) as [data|e]; [|intros H; now elim (Hcaught e)].
  destruct (Js.get data "response") as [r|e]; [|intros H; now elim (Hcaught e)].
  destruct (Js.trim "summary" r) as [s|e] eqn:Htrim; [|intros H; now elim (Hcaught e)].
  cbn [snd res success_answer]. intros H. injection H as <-.
  exists s, text. split; [reflexivity|].
  destruct r; try discriminate. cbn in Htrim. injection Htrim as <-.
  apply trim_idempotent.
Qed.

End ValidationProperties.

(** X19. Splitting a chunk at line feeds loses nothing: the lines, joined
    by line feeds, are the chunk; no line contains a line feed; and there
    is one more line than there are line feeds, so a chunk that ends in a
    line feed has an empty last line, which the listener skips. *)
Theorem split_lines_join (chunk : string) :
  Str.join (String Str.LF "") (Str.split_lines chunk) = chunk
  /\ forallb no_LF (Str.split_lines chunk) = true
  /\ length (Str.split_lines chunk) = S (count_LF chunk).
Proof.
  induction chunk as [|c r [IHj [IHn IHl]]]; [repeat split|].
  cbn [Str.split_lines count_LF no_LF].
  destruct (split_lines_cons r) as [h [t E]]. rewrite E in *.
  destruct (Ascii.eqb c Str.LF) eqn:Hc.
  - apply Ascii.eqb_eq in Hc. subst c. split; [|split].
    + rewrite join_cons, IHj. reflexivity.
    + cbn [forallb no_LF]. exact IHn.
    + cbn [length] in *. lia.
  - split; [|split].
    + destruct t as [|x t]; cbn in IHj |- *; now rewrite IHj.
    + cbn [forallb no_LF] in *. now rewrite Hc.
    + cbn [length] in *. lia.
Qed.

(** ** The client *)

Section ClientProperties.
Context {R : Runtime}.

Lemma transcripts_fold (rs : list App.speech_result) :
  forall a b,
    fold_left
      (fun acc r =>
         if App.isFinal r then (fst acc ++ App.transcript r, snd acc)
         else (fst acc, snd acc ++ App.transcript r))
      rs (a, b)
    = (a ++ cat (map App.transcript (filter App.isFinal rs)),
       b ++ cat (map App.transcript (filter (fun r => negb (App.isFinal r)) rs))).
Proof.
  induction rs as [|r rs IH]; intros a b.
  - cbn. now rewrite !append_nil_r.
  - cbn [fold_left filter]. destruct (App.isFinal r); cbn [fst snd negb map cat fold_right].
    + rewrite IH. fold (cat (map App.transcript (filter App.isFinal rs))).
      now rewrite append_assoc.
    + rewrite IH.
      fold (cat (map App.transcript (filter (fun r => negb (App.isFinal r)) rs))).
      now rewrite append_assoc.
Qed.

Lemma transcripts_segments (ev : App.speech_event) :
  App.transcripts ev = (cat (final_segments ev), cat (interim_segments ev)).
Proof. unfold App.transcripts. now rewrite transcripts_fold. Qed.

Lemma onresult_transcript (ev : App.speech_event) (st : App.state) :
  App.transcribedText (App.onresult ev st)
  = App.transcribedText st ++ cat (final_segments ev)
  /\ App.interimText (App.onresult ev st) = cat (interim_segments ev).
Proof.
  unfold App.onresult. rewrite transcripts_segments. cbn.
  destruct (Str.is_empty (cat (final_segments ev))) eqn:H; [|now split].
  apply is_empty_true in H. rewrite H. now rewrite append_nil_r.
Qed.

(** X20. Over any sequence of recognition results the transcript is
    what it was, followed by the final segments of the events in order:
    interim segments never enter it and nothing is dropped. The interim
    text shown is that of the last event alone, and nothing else of the
    state changes. *)
Theorem transcript_accumulates (events : list App.speech_event) (st : App.state) :
  App.transcribedText (heard events st)
  = App.transcribedText st ++ cat (map (fun ev => cat (final_segments ev)) events)
  /\ App.interimText (heard events st)
     = match rev events with
       | [] => App.interimText st
       | last :: _ => cat (interim_segments last)
       end
  /\ App.summary (heard events st) = App.summary st
  /\ App.error (heard events st) = App.error st
  /\ App.isRecording (heard events st) = App.isRecording st.
Proof.
  unfold heard. revert st.
  induction events as [|ev events IH] using rev_ind; intros st.
  - cbn. now rewrite append_nil_r.
  - rewrite fold_left_app, rev_app_distr, map_app, cat_app. cbn [fold_left rev app map].
    destruct (IH st) as [Ht [_ [Hs [He Hr]]]].
    destruct (onresult_transcript ev (fold_left (fun s e => App.onresult e s) events st))
      as [Ht' Hi'].
    rewrite Ht', Hi', Ht. cbn [cat fold_right]. rewrite append_nil_r, append_assoc.
    repeat split.
    + unfold App.onresult. destruct (App.transcripts ev). exact Hs.
    + unfold App.onresult. destruct (App.transcripts ev). exact He.
    + unfold App.onresult. destruct (App.transcripts ev). exact Hr.
Qed.

(** X21. With a transcript of white space only (or none), Generate
    Summary posts nothing, whatever the backend: it shows [Please record
    some text first] and leaves the rest of the state, the loading flag
    included, as it was. *)
Theorem generateSummary_blank (backend : value number -> App.outcome) (st : App.state) :
  all_ws (App.transcribedText st) = true ->
  App.generateSummary backend st
  = ({| App.isRecording := App.isRecording st;
        App.interimText := App.interimText st;
        App.transcribedText := App.transcribedText st;
        App.summary := App.summary st;
        App.isLoading := App.isLoading st;
        App.error := VStr "Please record some text first";
        App.ollamaStatus := App.ollamaStatus st;
        App.recognition := App.recognition st |}, []).
Proof.
  intros H. apply trim_blank in H. unfold App.generateSummary. now rewrite H.
Qed.

End ClientProperties.

Section EndToEndProperties.
Context {R : Runtime}.
Variable env : string -> option string.

Lemma caught_backend (e : js_error) :
  App.outcome_of (http_response (caught_answer env e))
  = App.Rejected
      (Some (VObj [("error",
                    VStr (if is_refused e
                          then "Cannot connect to Ollama. Please ensure Ollama is running locally."
                          else "Failed to generate summary"));
                   ("details",
                    VStr (if is_refused e
                          then "Trying to connect to: " ++ OLLAMA_URL env
                          else message e))])).
Proof. unfold caught_answer. destruct (is_refused e); reflexivity. Qed.

Lemma caught_failure_message (e : js_error) :
  App.failure_message
    (Some (VObj [("error",
                  VStr (if is_refused e
                        then "Cannot connect to Ollama. Please ensure Ollama is running locally."
                        else "Failed to generate summary"));
                 ("details",
                  VStr (if is_refused e
                        then "Trying to connect to: " ++ OLLAMA_URL env
                        else message e))]))
  = VStr (if is_refused e
          then "Cannot connect to Ollama. Please ensure Ollama is running locally."
          else "Failed to generate summary").
Proof. destruct (is_refused e); reflexivity. Qed.

(** X22. End to end, success: with a transcript that is not blank and an
    upstream that answers a generated string, Generate Summary posts the
    transcript once and ends with the trimmed generated string as the
    summary, no error, and the loading flag down. *)
Theorem generate_summary_end_to_end
  (upstream : upstream_call -> result (value number)) (data : value number)
  (s : string) (st : App.state) :
  Str.trim (App.transcribedText st) <> "" ->
  upstream (generate_call env (VStr (App.transcribedText st)) false) = Ok data ->
  Js.get data "response" = Ok (VStr s) ->
  App.generateSummary (summarize_backend env upstream) st
  = (settled (VStr (Str.trim s)) (VStr "") st,
     [VObj [("text", VStr (App.transcribedText st))]]).
Proof.
  intros Htext Hup Hdata.
  unfold App.generateSummary, summarize_backend.
  apply is_empty_false in Htext. rewrite Htext. apply is_empty_false in Htext.
  rewrite summarize_paths. cbn [Js.destructure Js.get Js.lookup String.eqb Ascii.eqb Bool.eqb].
  rewrite (text_missing_present _ Htext), Hup, Hdata. cbn [Js.trim]. reflexivity.
Qed.

(** X23. End to end, failure: with a transcript that is not blank and an
    upstream request that fails, Generate Summary ends with the loading
    flag down, the summary untouched and one of two messages: that Ollama
    cannot be reached when the connection was refused, [Failed to generate
    summary] otherwise. The details the server sends (the upstream URL,
    the upstream error message) are not shown. *)
Theorem generate_summary_upstream_failure
  (upstream : upstream_call -> result (value number)) (e : js_error) (st : App.state) :
  Str.trim (App.transcribedText st) <> "" ->
  upstream (generate_call env (VStr (App.transcribedText st)) false) = Throw e ->
  App.generateSummary (summarize_backend env upstream) st
  = (settled (App.summary st)
       (VStr (if is_refused e
              then "Cannot connect to Ollama. Please ensure Ollama is running locally."
              else "Failed to generate summary")) st,
     [VObj [("text", VStr (App.transcribedText st))]]).
Proof.
  intros Htext Hup.
  unfold App.generateSummary, summarize_backend.
  apply is_empty_false in Htext. rewrite Htext. apply is_empty_false in Htext.
  rewrite summarize_paths. cbn [Js.destructure Js.get Js.lookup String.eqb Ascii.eqb Bool.eqb].
  rewrite (text_missing_present _ Htext), Hup. cbn [snd res].
  rewrite caught_backend, caught_failure_message. reflexivity.
Qed.

(** X24. Against this server, Generate Summary always settles: the
    loading flag is down afterwards unless the transcript was blank (then
    it is untouched), at most one request is posted, and the error shown
    is the empty string or one of three messages. The message of the
    server for a missing text is never among them: the client checks the
    transcript as the server checks the text. *)
Theorem generate_summary_settles
  (upstream : upstream_call -> result (value number)) (st : App.state) :
  In (App.error (fst (App.generateSummary (summarize_backend env upstream) st)))
     [VStr "";
      VStr "Please record some text first";
      VStr "Failed to generate summary";
      VStr "Cannot connect to Ollama. Please ensure Ollama is running locally."]
  /\ (App.isLoading (fst (App.generateSummary (summarize_backend env upstream) st)) = false
      \/ all_ws (App.transcribedText st) = true
         /\ App.isLoading (fst (App.generateSummary (summarize_backend env upstream) st))
            = App.isLoading st)
  /\ (length (snd (App.generateSummary (summarize_backend env upstream) st)) <= 1)%nat.
Proof.
  unfold App.generateSummary, summarize_backend.
  destruct (Str.is_empty (Str.trim (App.transcribedText st))) eqn:Hblank.
  - apply is_empty_true, trim_blank in Hblank. cbn. split; [tauto|]. split; [|lia].
    right. now split.
  - apply is_empty_false in Hblank. cbn [fst snd length]. split; [|split; [left | lia]].
    + rewrite summarize_paths. cbn [Js.destructure Js.get Js.lookup String.eqb Ascii.eqb Bool.eqb].
      rewrite (text_missing_present _ Hblank).
      assert (Hc : forall e cs,
                 In (App.error
                       (match App.outcome_of
                                (http_response
                                   (res (snd (Ok tt, {| res := caught_answer env e;
                                                        calls := cs |}))))
                        with
                        | App.Resolved d =>
                            match Js.get d "success" with
                            | Ok success =>
                                if Js.truthy success
                                then match Js.get d "summary" with
                                     | Ok s0 =>
                                         {| App.isRecording := App.isRecording st;
                                            App.interimText := App.interimText st;
                                            App.transcribedText := App.transcribedText st;
                                            App.summary := s0;
                                            App.isLoading := false;
                                            App.error := VStr "";
                                            App.ollamaStatus := App.ollamaStatus st;
                                            App.recognition := App.recognition st |}
                                     | Throw _ =>
                                         App.set_failure (App.failure_message None) st
                                     end
                                else App.set_failure (VStr "Failed to generate summary") st
                            | Throw _ => App.set_failure (App.failure_message None) st
                            end
                        | App.Rejected response =>
                            App.set_failure (App.failure_message response) st
                        end))
                    [VStr ""; VStr "Please record some text first";
                     VStr "Failed to generate summary";
                     VStr "Cannot connect to Ollama. Please ensure Ollama is running locally."]).
      { intros e cs. cbn [snd res]. rewrite caught_backend, caught_failure_message.
        cbn. destruct (is_refused e); tauto. }
      destruct (upstream _) as [data|e]; [|apply Hc].
      destruct (Js.get data "response") as [r|e]; [|apply Hc].
      destruct (Js.trim "summary" r) as [s|e]; [|apply Hc].
      cbn. tauto.
    + rewrite summarize_paths. cbn [Js.destructure Js.get Js.lookup String.eqb Ascii.eqb Bool.eqb].
      rewrite (text_missing_present _ Hblank).
      destruct (upstream _) as [data|e].
      * destruct (Js.get data "response") as [r|e].
        -- destruct (Js.trim "summary" r) as [s|e]; [reflexivity|].
           cbn [snd res]. rewrite caught_backend. reflexivity.
        -- cbn [snd res]. rewrite caught_backend. reflexivity.
      * cbn [snd res]. rewrite caught_backend. reflexivity.
Qed.

Lemma wire_connected_payload (names : list string) (has : bool) :
  wire (connected_payload env (map VStr names) has)
  = connected_payload env (map VStr names) has.
Proof.
  unfold connected_payload. cbn. rewrite ?map_map.
  rewrite (map_ext (fun x : string => wire (VStr x)) VStr (fun _ => eq_refl)).
  reflexivity.
Qed.

Lemma includes_self (s : string) : Str.includes s s = true.
Proof.
  assert (P : String.prefix s s = true).
  { apply prefix_spec. exists EmptyString. symmetry. apply append_nil_r. }
  destruct s; cbn [Str.includes]; rewrite P; reflexivity.
Qed.

(** X25. The status check, end to end: the client always receives the
    payload of the server as it crosses the wire; so, when upstream lists
    the required model and then an entry without a name, the server sends
    the names [[name; undefined]] and the client stores [[name; null]].
    When the upstream request failed,
    Generate Summary is disabled; when upstream listed its models, the
    client stores the payload as the server built it, Generate Summary is
    enabled unless a summary is loading, whether or not the required model
    is among them, and the model indicator is on exactly when some name
    contains the required model name. *)
Theorem status_check_end_to_end
  (upstream : upstream_call -> result (value number)) (st : App.state) :
  (exists p,
     res (snd (ollama_status env upstream init)) = [Json p]
     /\ App.ollamaStatus (App.checkOllamaStatus (status_backend env upstream) st)
        = Some (wire p))
  /\ (forall e,
        upstream (AxiosGet (OLLAMA_URL env ++ "/api/tags")) = Throw e ->
        App.ollamaStatus (App.checkOllamaStatus (status_backend env upstream) st)
        = Some (disconnected_payload env (message e))
        /\ App.generate_disabled (App.checkOllamaStatus (status_backend env upstream) st)
           = true)
  /\ (forall data items names,
        upstream (AxiosGet (OLLAMA_URL env ++ "/api/tags")) = Ok data ->
        Js.get data "models" = Ok (VArr items) ->
        model_names items = Some names ->
        App.ollamaStatus (App.checkOllamaStatus (status_backend env upstream) st)
        = Some (connected_payload env (map VStr names)
                  (existsb (fun n => Str.includes n (MODEL_NAME env)) names))
        /\ App.generate_disabled (App.checkOllamaStatus (status_backend env upstream) st)
           = App.isLoading st
        /\ App.status_flag "hasRequiredModel"
             (App.checkOllamaStatus (status_backend env upstream) st)
           = existsb (fun n => Str.includes n (MODEL_NAME env)) names)
  /\ (upstream (AxiosGet (OLLAMA_URL env ++ "/api/tags"))
      = Ok (VObj [("models", VArr [VObj [("name", VStr (MODEL_NAME env))]; VObj []])]) ->
      res (snd (ollama_status env upstream init))
      = [Json (VObj [("connected", VBool true);
                     ("models", VArr [VStr (MODEL_NAME env); VUndefined]);
                     ("hasRequiredModel", VBool true);
                     ("requiredModel", VStr (MODEL_NAME env))])]
      /\ App.ollamaStatus (App.checkOllamaStatus (status_backend env upstream) st)
         = Some (VObj [("connected", VBool true);
                       ("models", VArr [VStr (MODEL_NAME env); VNull]);
                       ("hasRequiredModel", VBool true);
                       ("requiredModel", VStr (MODEL_NAME env))])).
Proof.
  unfold status_backend. split; [|split; [|split]]; cycle 3.
  { intros Hup.
    assert (E : ollama_status env upstream init
                = (Ok tt, {| res := [Json (VObj [("connected", VBool true);
                                                 ("models", VArr [VStr (MODEL_NAME env); VUndefined]);
                                                 ("hasRequiredModel", VBool true);
                                                 ("requiredModel", VStr (MODEL_NAME env))])];
                             calls := [AxiosGet (OLLAMA_URL env ++ "/api/tags")] |})).
    { unfold ollama_status, try_catch, bind, await, lift. cbn. rewrite Hup. cbn.
      rewrite includes_self. reflexivity. }
    rewrite E. split; reflexivity. }
  - destruct (ollama_status_total env upstream) as [p [E _]].
    rewrite E. cbn [snd res]. exists p. split; reflexivity.
  - intros e Hup. rewrite (ollama_status_failed env upstream e Hup).
    split; [reflexivity|].
    unfold App.generate_disabled. cbn. now rewrite orb_true_r.
  - intros data items names Hup Hm Hn.
    rewrite (ollama_status_listed env upstream data items names Hup Hm Hn).
    assert (E : App.ollamaStatus
                  (App.checkOllamaStatus
                     (App.outcome_of
                        (http_response
                           [Json (connected_payload env (map VStr names)
                                    (existsb (fun n => Str.includes n (MODEL_NAME env))
                                       names))])) st)
                = Some (connected_payload env (map VStr names)
                          (existsb (fun n => Str.includes n (MODEL_NAME env)) names))).
    { unfold http_response. cbn [http_status sent_status sent_body].
      rewrite wire_connected_payload. reflexivity. }
    split; [exact E|].
    unfold App.generate_disabled, App.status_flag. rewrite E.
    cbn. now rewrite orb_false_r.
Qed.

End EndToEndProperties.

(** ** The further theorems at concrete requests *)

Import Fixture2.

(** The text is the number 5. *)
Lemma summarize_non_string_text_witness :
  summarize env0 (answers "unused") (VObj [("text", VNum (RefJson.Finite 5 0))]) init
    = (Ok tt, {| res := failed_answer "text.trim is not a function"; calls := [] |})
  /\ http_status (failed_answer (R := ref_runtime) "text.trim is not a function") = Some 500.
Proof.
  apply (summarize_non_string_text (R := ref_runtime) env0 (answers "unused")
           (VObj [("text", VNum (RefJson.Finite 5 0))]) (VNum (RefJson.Finite 5 0))); reflexivity.
Defined.

(** Upstream answers an error object, without [response]. *)
Lemma summarize_answer_without_response_witness :
  exists details,
    summarize env0 (gives model_not_found)
      (request "Hello") init
    = (Ok tt, {| res := failed_answer details;
                 calls := [generate_call env0 (VStr "Hello") false] |})
    /\ (Js.get (R := ref_runtime) model_not_found "response"
        = Ok VUndefined ->
        details = "Cannot read properties of undefined (reading 'trim')").
Proof.
  apply (summarize_answer_without_response (R := ref_runtime) env0
           (gives model_not_found)
           (request "Hello") model_not_found "Hello");
    [reflexivity | discriminate | reflexivity | intros s H; discriminate H].
Defined.

(** Upstream answers an empty object. *)
Lemma ollama_status_without_models_witness :
  res (snd (ollama_status env0 (gives empty_object) init))
  = [Json (connected_payload (R := ref_runtime) env0 [] false)].
Proof.
  apply (ollama_status_without_models (R := ref_runtime) env0 (gives empty_object)
           empty_object VUndefined); reflexivity.
Defined.

(** The required model is listed first, a [null] entry follows. *)
Lemma ollama_status_null_entry_witness :
  exists msg,
    res (snd (ollama_status env0
                (gives listing_with_null)
                init))
    = [Json (disconnected_payload (R := ref_runtime) env0 msg)]
    /\ http_status
         (res (snd (ollama_status env0
                      (gives listing_with_null)
                      init))) = Some 200.
Proof.
  apply (ollama_status_null_entry (R := ref_runtime) env0
           (gives listing_with_null)
           listing_with_null
           [VObj [("name", VStr "mistral:latest")]; VNull]);
    [reflexivity | reflexivity | right; left; reflexivity].
Defined.

(** Upstream refuses the streaming request. *)
Lemma summarize_stream_upstream_failure_witness :
  summarize_stream env0 (fails refusal) (request "hello") [ClientClose]
    = (idle (opened_log ++ [Write (failure_event refusal); End]),
       [generate_call env0 (VStr "hello") true])
  /\ map describe
       (out (fst (summarize_stream env0 (fails refusal) (request "hello") [ClientClose])))
     = ["event-stream head"; "start"; "error"; "end"]
  /\ one_terminal_then_closed
       (opened_log (R := ref_runtime) ++ [Write (failure_event refusal); End]) = true.
Proof.
  pose proof (summarize_stream_upstream_failure (R := ref_runtime) env0 (fails refusal)
                (request "hello") "hello" refusal [ClientClose] eq_refl
                (fun H : Str.trim "hello" = "" =>
                   eq_ind "hello"
                     (fun s => match s with EmptyString => False | String _ _ => True end)
                     I "" H)
                eq_refl) as [H1 [H2 [H3 _]]].
  split; [exact H1 | split; [exact H2 | exact H3]].
Defined.

(** The text is [true]. *)
Lemma summarize_stream_non_string_text_witness :
  summarize_stream env0 accepts (VObj [("text", VBool true)]) [UpstreamEnd]
    = (idle [Write (failure_event (TypeError "text.trim is not a function")); End], [])
  /\ existsb (is_sse_head (R := ref_runtime))
       [Write (failure_event (TypeError "text.trim is not a function")); End] = false.
Proof.
  pose proof (summarize_stream_non_string_text (R := ref_runtime) env0 accepts
                (VObj [("text", VBool true)]) (VBool true) [UpstreamEnd]
                eq_refl eq_refl eq_refl) as [H1 [H2 _]].
  split; [exact H1 | exact H2].
Defined.

(** Two fragments, then the completion record, then the end. *)
Lemma relay_completes_on_done_witness :
  out (fst (summarize_stream env0 accepts (request "hello")
              (map UpstreamData two_then_done ++ [UpstreamEnd])%list))
  = (opened_log
     ++ [Write (chunk_event (VStr "Sum") "Sum");
         Write (chunk_event (VStr "mary.") "Summary.")]
     ++ [Write (complete_event "Summary." (VStr "hello")); End])%list
  /\ one_terminal_then_closed
       (out (fst (summarize_stream env0 accepts (request "hello")
                    (map UpstreamData two_then_done ++ [UpstreamEnd])%list))) = true
  /\ map describe
       (out (fst (summarize_stream env0 accepts (request "hello")
                    (map UpstreamData two_then_done ++ [UpstreamEnd])%list)))
     = ["event-stream head"; "start"; "chunk"; "chunk"; "complete"; "end"]
  /\ http_status
       (out (fst (summarize_stream env0 accepts (request "hello")
                    (map UpstreamData two_then_done ++ [UpstreamEnd])%list))) = Some 200
  /\ map (fun op => (frame_field "content" op, frame_field "fullContent" op))
       (chunk_writes
          (out (fst (summarize_stream env0 accepts (request "hello")
                       (map UpstreamData two_then_done ++ [UpstreamEnd])%list))))
     = [(VStr "Sum", VStr "Sum"); (VStr "mary.", VStr "Summary.")]
  /\ map (fun op => (frame_field "content" op, frame_field "originalText" op))
       (filter (writes "complete")
          (out (fst (summarize_stream env0 accepts (request "hello")
                       (map UpstreamData two_then_done ++ [UpstreamEnd])%list))))
     = [(VStr "Summary.", VStr "hello")].
Proof.
  apply (relay_completes_on_done (R := ref_runtime) env0 accepts (request "hello") "hello"
           two_then_done [("Sum", false); ("mary.", false)] "");
    [reflexivity | discriminate | reflexivity | reflexivity | reflexivity | reflexivity].
Defined.

(** Two fragments, then the upstream stream fails. *)
Lemma relay_upstream_error_witness :
  out (fst (summarize_stream env0 accepts (request "hello")
              (map UpstreamData two_open ++ [UpstreamError])%list))
  = (opened_log
     ++ [Write (chunk_event (VStr "Sum") "Sum");
         Write (chunk_event (VStr "mary.") "Summary.")]
     ++ [Write stream_error_event; End])%list
  /\ one_terminal_then_closed
       (out (fst (summarize_stream env0 accepts (request "hello")
                    (map UpstreamData two_open ++ [UpstreamError])%list))) = true
  /\ map describe
       (out (fst (summarize_stream env0 accepts (request "hello")
                    (map UpstreamData two_open ++ [UpstreamError])%list)))
     = ["event-stream head"; "start"; "chunk"; "chunk"; "error"; "end"]
  /\ map (frame_field "error")
       (filter (writes "error")
          (out (fst (summarize_stream env0 accepts (request "hello")
                       (map UpstreamData two_open ++ [UpstreamError])%list))))
     = [VStr "Stream processing error"].
Proof.
  apply (relay_upstream_error (R := ref_runtime) env0 accepts (request "hello") "hello"
           two_open);
    [reflexivity | discriminate | reflexivity | reflexivity | reflexivity].
Defined.

(** A fragment after the completion record. *)
Lemma relay_writes_after_done_witness :
  exists pre post op,
    out (fst (summarize_stream env0 accepts (request "hello")
                (map UpstreamData done_then_more)))
    = (pre ++ End :: post)%list
    /\ In op post /\ writes "chunk" op = true.
Proof.
  apply (relay_writes_after_done (R := ref_runtime) env0 accepts (request "hello") "hello"
           done_then_more [] [(" there", false)] "Hi");
    [reflexivity | discriminate | reflexivity | reflexivity | reflexivity | discriminate].
Defined.

(** The success answer for the generated string [" Summary. "], spaces
    around it. *)
Lemma summary_is_trimmed_witness :
  exists (s : string) (text : value RefJson.double),
    VObj [("success", VBool true); ("summary", VStr "Summary.");
          ("originalText", VStr "Hello")]
    = VObj [("success", VBool true); ("summary", VStr s); ("originalText", text)]
    /\ Str.trim s = s.
Proof.
  apply (summary_is_trimmed (R := ref_runtime) env0 (answers " Summary. ") (request "Hello")).
  reflexivity.
Defined.

(** A transcript of two spaces. *)
Lemma generateSummary_blank_witness :
  App.generateSummary (summarize_backend (R := ref_runtime) env0 (answers "unused")) (recorded "  ")
  = ({| App.isRecording := false;
        App.interimText := "";
        App.transcribedText := "  ";
        App.summary := VStr "";
        App.isLoading := false;
        App.error := VStr "Please record some text first";
        App.ollamaStatus := App.ollamaStatus (recorded "  ");
        App.recognition := true |}, []).
Proof.
  apply (generateSummary_blank (R := ref_runtime)
           (summarize_backend (R := ref_runtime) env0 (answers "unused")) (recorded "  ")).
  reflexivity.
Defined.

(** The end-to-end example: the transcript [Hello world. This is a test.]
    and an upstream that generates [" Summary. "]. *)
Lemma generate_summary_end_to_end_witness :
  App.generateSummary (summarize_backend (R := ref_runtime) env0 (answers " Summary. "))
    (recorded "Hello world. This is a test.")
  = (settled (VStr "Summary.") (VStr "") (recorded "Hello world. This is a test."),
     [VObj [("text", VStr "Hello world. This is a test.")]]).
Proof.
  apply (generate_summary_end_to_end (R := ref_runtime) env0 (answers " Summary. ")
           (VObj [("response", VStr " Summary. ")]) " Summary. "
           (recorded "Hello world. This is a test."));
    [discriminate | reflexivity | reflexivity].
Defined.

(** Upstream times out. *)
Lemma generate_summary_upstream_failure_witness :
  App.generateSummary (summarize_backend (R := ref_runtime) env0 (fails timeout)) (recorded "Hello")
  = (settled (VStr "") (VStr "Failed to generate summary") (recorded "Hello"),
     [VObj [("text", VStr "Hello")]]).
Proof.
  apply (generate_summary_upstream_failure (R := ref_runtime) env0 (fails timeout) timeout
           (recorded "Hello"));
    [discriminate | reflexivity].
Defined.

(** ** The reference runtime on numbers

    Number literals at the edges of binary64, as [JSON.parse] reads them
    and as string conversion and [JSON.stringify] write them. *)

Section ReferenceNumbers.
Import Fixture.

(** An integer above [2^53] is rounded to the nearest number (here to
    even). *)
Lemma reads_rounded_integer :
  RefJson.parse "9007199254740993" = Some (VNum (RefJson.Finite 1 53))
  /\ Js.to_string (R := ref_runtime) (VNum (RefJson.Finite 1 53)) = Ok "9007199254740992".
Proof. split; [vm_compute; reflexivity | vm_compute; reflexivity]. Qed.

(** A literal below the smallest number underflows to zero, which is
    falsy; one above the largest overflows to infinity. *)
Lemma reads_underflow_and_overflow :
  RefJson.parse "1e-400" = Some (VNum (RefJson.Finite 0 0))
  /\ Js.truthy (R := ref_runtime) (VNum (RefJson.Finite 0 0)) = false
  /\ RefJson.parse "-1e400" = Some (VNum (RefJson.Infinite true))
  /\ Js.to_string (R := ref_runtime) (VNum (RefJson.Infinite true)) = Ok "-Infinity".
Proof.
  split; [vm_compute; reflexivity|].
  split; [vm_compute; reflexivity|].
  split; vm_compute; reflexivity.
Qed.

(** The shortest digits that read back, in the notation of
    [Number::toString]. *)
Lemma writes_shortest_digits :
  map (fun s => match RefJson.parse s with
                | Some v => Js.to_string (R := ref_runtime) v
                | None => Ok "SyntaxError"
                end)
    ["0.1"; "0.30000000000000004"; "100"; "1e21"; "123456789012345680000";
     "0.000001"; "1e-7"; "-2.50"; "5e-324"; "1.7976931348623157e308"; "-0"]
  = map Ok
      ["0.1"; "0.30000000000000004"; "100"; "1e+21"; "123456789012345680000";
       "0.000001"; "1e-7"; "-2.5"; "5e-324"; "1.7976931348623157e+308"; "0"].
Proof. vm_compute. reflexivity. Qed.

(** A record whose fragment is a number: the frame carries the number,
    the accumulator its digits. *)
Lemma relays_number_fragment :
  summarize_stream env0 accepts (request "hello")
    [UpstreamData (line "{'response':1e21,'done':false}")]
  = ({| out := (opened ++ [Write (chunk_event (VNum (RefJson.Finite 476837158203125 21)) "1e+21")])%list;
        fullResponse := "1e+21";
        destroyed := false |},
     [generate_call env0 (VStr "hello") true]).
Proof. reflexivity. Qed.

(** A record whose fragment underflows to zero writes no frame. *)
Lemma skips_zero_fragment :
  out (fst (summarize_stream env0 accepts (request "hello")
              [UpstreamData (line "{'response':1e-400,'done':false}")]))
  = opened.
Proof. reflexivity. Qed.

(** A model name that is an infinite number reaches the client as
    [null]. *)
Lemma infinite_name_arrives_null :
  App.ollamaStatus
    (App.checkOllamaStatus
       (status_backend (R := ref_runtime) env0
          (fun _ => match RefJson.parse
                            (RefJson.dq "{'models':[{'name':'mistral'},{'name':1e400}]}") with
                    | Some data => Ok data
                    | None => Throw (TypeError "SyntaxError")
                    end))
       (App.initial true))
  = Some (VObj [("connected", VBool true);
                ("models", VArr [VStr "mistral"; VNull]);
                ("hasRequiredModel", VBool true);
                ("requiredModel", VStr "mistral")]).
Proof. reflexivity. Qed.

End ReferenceNumbers.
